(** * Factory energy retrofit simulator: the calculation engine of [app.py]

    The engine of the Streamlit application is embedded here: the motor
    efficiency lookup, the VFD savings function, the lighting energy
    function, the simulation loop of the results tab and the recommendation
    list of the last tab.  Widgets, charts and string formatting are left
    out.

    Python numbers are duck-typed.  The engine is therefore written once,
    over a class [Number] of the operations the source uses, and run in two
    instances:
    - [Q], exact rational arithmetic, in which the algebraic statements are
      proved for all inputs;
    - [float], IEEE 754 binary64 with round-to-nearest-even, which is what
      CPython executes, in which concrete runs are evaluated.

    Python integers stay [Z] and are converted where the source mixes them
    with a float. *)

From Stdlib Require Import ZArith QArith Qminmax Bool List Ascii String Lia Lqa.
From Stdlib Require Import Permutation Sorted Morphisms Setoid.
From Stdlib Require Import PrimFloat Uint63.
Import ListNotations.

Set Implicit Arguments.

(** ** Exceptions *)

Inductive exn : Type :=
| ZeroDivisionError
| IndexError
| KeyError.

Inductive py (A : Type) : Type :=
| Ok (a : A)
| Raise (e : exn).

Arguments Ok {A} a.
Arguments Raise {A} e.

Definition bind {A B : Type} (m : py A) (k : A -> py B) : py B :=
  match m with
  | Ok a => k a
  | Raise e => Raise e
  end.

Declare Scope py_scope.
Delimit Scope py_scope with py.
Notation "x <- m ;; k" := (bind m (fun x => k))
  (at level 61, m at next level, right associativity) : py_scope.
Notation "' p <- m ;; k" := (bind m (fun p => k))
  (at level 61, p pattern, m at next level, right associativity) : py_scope.
Open Scope py_scope.

Definition succeeds {A : Type} (m : py A) : bool :=
  match m with Ok _ => true | Raise _ => false end.

(** ** Numbers *)

Class Number (F : Type) : Type := {
  of_int : Z -> F;          (* int operand promoted to the other operand's type *)
  lit : Q -> F;             (* a decimal literal of the source text *)
  add : F -> F -> F;
  sub : F -> F -> F;
  mul : F -> F -> F;
  quot : F -> F -> F;       (* the quotient, for a divisor that is not zero *)
  is_zero : F -> bool;
  leb : F -> F -> bool;
  ltb : F -> F -> bool
}.

(** [a / b]: raises on a zero divisor. *)
Definition truediv {F : Type} `{Number F} (a b : F) : py F :=
  if is_zero b then Raise ZeroDivisionError else Ok (quot a b).

(** [max(a, b)]: the first argument unless the second is strictly larger. *)
Definition py_max {F : Type} `{Number F} (a b : F) : F :=
  if ltb a b then b else a.

(** [sum(xs)]: left to right from the integer 0. *)
Definition py_sum {F : Type} `{Number F} (xs : list F) : F :=
  fold_left add xs (of_int 0).

#[export] Instance Number_Q : Number Q := {
  of_int := inject_Z;
  lit := fun q => q;
  add := Qplus;
  sub := Qminus;
  mul := Qmult;
  quot := Qdiv;
  is_zero := fun q => Qeq_bool q 0;
  leb := Qle_bool;
  ltb := fun a b => negb (Qle_bool b a)
}.

(** The float nearest to an integer, for integers below 2^63 in absolute
    value; every integer of the engine is far below. *)
Definition float_of_Z (z : Z) : float :=
  if (z <? 0)%Z then PrimFloat.opp (PrimFloat.of_uint63 (Uint63.of_Z (- z)))
  else PrimFloat.of_uint63 (Uint63.of_Z z).

(** A decimal literal with few digits is the correctly rounded quotient of
    two integers that binary64 holds exactly. *)
Definition float_of_decimal (q : Q) : float :=
  PrimFloat.div (float_of_Z (Qnum q)) (float_of_Z (Zpos (Qden q))).

#[export] Instance Number_float : Number float := {
  of_int := float_of_Z;
  lit := float_of_decimal;
  add := PrimFloat.add;
  sub := PrimFloat.sub;
  mul := PrimFloat.mul;
  quot := PrimFloat.div;
  is_zero := fun x => PrimFloat.eqb x PrimFloat.zero;
  leb := PrimFloat.leb;
  ltb := PrimFloat.ltb
}.

(** ** Dictionaries with string keys, in insertion order *)

Fixpoint dict_get {V : Type} (k : string) (d : list (string * V)) : option V :=
  match d with
  | [] => None
  | (k', v) :: d' => if String.eqb k k' then Some v else dict_get k d'
  end.

(** [d[k]] *)
Definition getitem {V : Type} (d : list (string * V)) (k : string) : py V :=
  match dict_get k d with
  | Some v => Ok v
  | None => Raise KeyError
  end.

(** [d.get(k, default)] *)
Definition get_or {V : Type} (d : list (string * V)) (k : string) (default : V) : V :=
  match dict_get k d with
  | Some v => v
  | None => default
  end.

(** [xs[0]] and [xs[-1]] *)
Definition first_item {A : Type} (xs : list A) : py A :=
  match xs with
  | [] => Raise IndexError
  | x :: _ => Ok x
  end.

Fixpoint last_item {A : Type} (xs : list A) : py A :=
  match xs with
  | [] => Raise IndexError
  | [x] => Ok x
  | _ :: xs' => last_item xs'
  end.

(** [s[-1]] on a string: its last character, [IndexError] on the empty
    string. *)
Fixpoint str_last (s : string) : py ascii :=
  match s with
  | EmptyString => Raise IndexError
  | String c EmptyString => Ok c
  | String _ s' => str_last s'
  end.

(** ** Records: the dictionaries the source builds, one module per kind *)

Module Motor.
Record t (F : Type) : Type := mk {
  rating : F;
  quantity : Z;
  load_factor : F;
  current_class : string;
  vfd_applicable : bool
}.
Arguments mk {F}.
Arguments rating {F}.
Arguments quantity {F}.
Arguments load_factor {F}.
Arguments current_class {F}.
Arguments vfd_applicable {F}.
End Motor.

(** The local variables of one pass of the motor loop. *)
Module Locals.
Record t (F : Type) : Type := mk {
  current_eff : F;
  current_power : F;
  current_energy : F;
  current_input : F;
  ie4_eff : F;
  ie4_input : F;
  energy_savings_motor : F;
  cost_savings_motor : F;
  upgrade_cost : F
}.
Arguments mk {F}.
Arguments current_eff {F}.
Arguments current_power {F}.
Arguments current_energy {F}.
Arguments current_input {F}.
Arguments ie4_eff {F}.
Arguments ie4_input {F}.
Arguments energy_savings_motor {F}.
Arguments cost_savings_motor {F}.
Arguments upgrade_cost {F}.
End Locals.

Module Upgrade.
Record t (F : Type) : Type := mk {
  motor_id : Z;
  rating : F;
  quantity : Z;
  current_class : string;
  energy_savings : F;
  cost_savings : F;
  upgrade_cost : F;
  payback_years : F
}.
Arguments mk {F}.
Arguments motor_id {F}.
Arguments rating {F}.
Arguments quantity {F}.
Arguments current_class {F}.
Arguments energy_savings {F}.
Arguments cost_savings {F}.
Arguments upgrade_cost {F}.
Arguments payback_years {F}.
End Upgrade.

Module Vfd.
Record t (F : Type) : Type := mk {
  motor_id : Z;
  rating : F;
  quantity : Z;
  energy_savings : F;
  cost_savings : F;
  vfd_cost : F;
  payback_years : F;
  savings_pct : F
}.
Arguments mk {F}.
Arguments motor_id {F}.
Arguments rating {F}.
Arguments quantity {F}.
Arguments energy_savings {F}.
Arguments cost_savings {F}.
Arguments vfd_cost {F}.
Arguments payback_years {F}.
Arguments savings_pct {F}.
End Vfd.

Module Lighting.
Record t (F : Type) : Type := mk {
  current_energy : F;
  led_energy : F;
  energy_savings : F;
  cost_savings : F;
  retrofit_cost : Z;
  payback_years : F
}.
Arguments mk {F}.
Arguments current_energy {F}.
Arguments led_energy {F}.
Arguments energy_savings {F}.
Arguments cost_savings {F}.
Arguments retrofit_cost {F}.
Arguments payback_years {F}.
End Lighting.

(** One entry of the recommendation list.  The source stores formatted
    text in [description], [investment], [annual_savings] and [payback];
    the values that text is printed from are kept instead.  The
    description of a motor upgrade prints the last character of the class
    name after the letters IE. *)
Module Rec.
Inductive description (F : Type) : Type :=
| OfMotor (motor_id : Z) (class_suffix : ascii) (rating : F) (quantity : Z)
| OfVfd (motor_id : Z) (rating : F) (quantity : Z)
| OfLighting (num_fixtures led_wattage : Z).
Arguments OfMotor {F}.
Arguments OfVfd {F}.
Arguments OfLighting {F}.

Record t (F : Type) : Type := mk {
  type : string;
  descr : description F;
  investment : F;
  annual_savings : F;
  payback : F;
  priority : string;
  sort_key : F
}.
Arguments mk {F}.
Arguments type {F}.
Arguments descr {F}.
Arguments investment {F}.
Arguments annual_savings {F}.
Arguments payback {F}.
Arguments priority {F}.
Arguments sort_key {F}.
End Rec.

(** An entry of the default inventories of [get_default_motors]. *)
Module DefaultMotor.
Record t (F : Type) : Type := mk {
  rating : F;
  quantity : Z;
  load_factor : F;
  current_class : string
}.
Arguments mk {F}.
Arguments rating {F}.
Arguments quantity {F}.
Arguments load_factor {F}.
Arguments current_class {F}.
End DefaultMotor.

(** An entry of [get_default_lighting]. *)
Module DefaultLighting.
Record t : Type := mk {
  type : string;
  fixtures : Z;
  wattage : Z;
  hours_per_day : Z
}.
End DefaultLighting.

(** A row of the implementation roadmap.  [Duration] is the number of
    months the source prints. *)
Module Roadmap.
Record t (F : Type) : Type := mk {
  Year : Z;
  Phase : string;
  Action : Rec.description F;
  Duration : Z;
  Priority : string
}.
Arguments mk {F}.
Arguments Year {F}.
Arguments Phase {F}.
Arguments Action {F}.
Arguments Duration {F}.
Arguments Priority {F}.
End Roadmap.

(** ** Engine *)

Section Engine.

Context {F : Type} `{Number F}.

Local Notation "a + b" := (add a b).
Local Notation "a - b" := (sub a b).
Local Notation "a * b" := (mul a b).

(** *** class MotorSystem *)

Definition curve : Type := list (F * F).

Definition EFFICIENCY_CURVES : list (string * curve) :=
  [ ("IE1"%string, [(lit 0.25, lit 0.78); (lit 0.50, lit 0.85); (lit 0.75, lit 0.88); (lit 1.00, lit 0.89)]);
    ("IE2"%string, [(lit 0.25, lit 0.82); (lit 0.50, lit 0.88); (lit 0.75, lit 0.90); (lit 1.00, lit 0.91)]);
    ("IE3"%string, [(lit 0.25, lit 0.85); (lit 0.50, lit 0.90); (lit 0.75, lit 0.92); (lit 1.00, lit 0.93)]);
    ("IE4"%string, [(lit 0.25, lit 0.88); (lit 0.50, lit 0.93); (lit 0.75, lit 0.95); (lit 1.00, lit 0.96)]) ].

Definition MOTOR_COSTS : list (string * Z) :=
  [ ("IE2"%string, 50%Z); ("IE3"%string, 65%Z); ("IE4"%string, 85%Z) ].

(** The loop [for i in range(len(load_points)-1)] shared by
    [get_efficiency] and [calculate_vfd_savings]: the value at the first
    interval that holds the load factor, [None] when the loop runs out. *)
Fixpoint interpolate (load_points values : list F) (load_factor : F) : py (option F) :=
  match load_points, values with
  | x1 :: ((x2 :: _) as load_points'), y1 :: ((y2 :: _) as values') =>
      if leb x1 load_factor && leb load_factor x2 then
        d <- truediv ((y2 - y1) * (load_factor - x1)) (x2 - x1) ;;
        Ok (Some (y1 + d))
      else interpolate load_points' values' load_factor
  | _, _ => Ok None
  end.

(** What both functions do with a curve: the loop, then the fall-through
    [values[-1] if load_factor >= 1.0 else values[0]]. *)
Definition lookup (c : curve) (load_factor : F) : py F :=
  let load_points := map fst c in
  let values := map snd c in
  r <- interpolate load_points values load_factor ;;
  match r with
  | Some v => Ok v
  | None =>
      if leb (lit 1.0) load_factor then last_item values else first_item values
  end.

Definition get_efficiency (efficiency_class : string) (load_factor : F) : py F :=
  ie2 <- getitem EFFICIENCY_CURVES "IE2" ;;
  let c := get_or EFFICIENCY_CURVES efficiency_class ie2 in
  lookup c load_factor.

Definition vfd_savings_curve : curve :=
  [(lit 0.25, lit 0.40); (lit 0.50, lit 0.25); (lit 0.75, lit 0.10); (lit 1.00, lit 0.00)].

(** Returns [(saved_energy, cost_savings, savings * 100)].  The caller
    passes an integer number of hours. *)
Definition calculate_vfd_savings (load_factor motor_power : F) (operating_hours : Z)
    (electricity_cost : F) : py (F * F * F) :=
  savings <- lookup vfd_savings_curve load_factor ;;
  let base_power := motor_power * load_factor in
  let base_energy := base_power * of_int operating_hours in
  let saved_energy := base_energy * savings in
  let cost_savings := saved_energy * electricity_cost in
  Ok (saved_energy, cost_savings, savings * of_int 100).

(** *** class LightingSystem *)

Record lighting_type : Type := {
  efficacy : Z;
  lifetime : Z;
  cost_per_unit : Z
}.

Definition LIGHTING_TYPES : list (string * lighting_type) :=
  [ ("Incandescent"%string, {| efficacy := 15; lifetime := 1000; cost_per_unit := 2 |});
    ("Fluorescent"%string, {| efficacy := 60; lifetime := 8000; cost_per_unit := 8 |});
    ("CFL"%string, {| efficacy := 65; lifetime := 10000; cost_per_unit := 5 |});
    ("Metal Halide"%string, {| efficacy := 80; lifetime := 15000; cost_per_unit := 50 |});
    ("LED"%string, {| efficacy := 120; lifetime := 50000; cost_per_unit := 15 |}) ].

(** The three arguments are integers at every call; [/] is true
    division. *)
Definition calculate_lighting_energy (num_fixtures wattage_per_fixture operating_hours : Z) : py F :=
  truediv (of_int (num_fixtures * wattage_per_fixture * operating_hours)) (of_int 1000).

(** *** The idiom [cost / savings if savings > 0 else 999] *)

Definition payback_of (cost savings : F) : py F :=
  if ltb (of_int 0) savings then truediv cost savings else Ok (of_int 999).

(** *** Tab 3: the simulation *)

Section Simulation.

(* the sidebar and the two audit tabs, as the simulation reads them *)
Variable total_hours : Z.
Variable electricity_cost : F.
Variable carbon_factor : F.
Variable num_fixtures wattage_per daily_hours operating_days led_wattage : Z.

Definition motor_locals (motor : Motor.t F) : py (Locals.t F) :=
  current_eff <- get_efficiency (Motor.current_class motor) (Motor.load_factor motor) ;;
  let current_power := Motor.rating motor * Motor.load_factor motor in
  let current_energy := current_power * of_int total_hours * of_int (Motor.quantity motor) in
  current_input <- truediv current_energy current_eff ;;
  ie4_eff <- get_efficiency "IE4" (Motor.load_factor motor) ;;
  ie4_input <- truediv current_energy ie4_eff ;;
  let energy_savings_motor := current_input - ie4_input in
  let cost_savings_motor := energy_savings_motor * electricity_cost in
  ie4_cost <- getitem MOTOR_COSTS "IE4" ;;
  ie2_cost <- getitem MOTOR_COSTS "IE2" ;;
  let upgrade_cost :=
    Motor.rating motor * of_int (Motor.quantity motor)
    * of_int (ie4_cost - get_or MOTOR_COSTS (Motor.current_class motor) ie2_cost) in
  Ok (Locals.mk current_eff current_power current_energy current_input ie4_eff ie4_input
        energy_savings_motor cost_savings_motor upgrade_cost).

Definition motor_upgrade (i : Z) (motor : Motor.t F) : py (Upgrade.t F) :=
  v <- motor_locals motor ;;
  payback_years <- payback_of (py_max (Locals.upgrade_cost v) (of_int 100))
                              (Locals.cost_savings_motor v) ;;
  Ok (Upgrade.mk (i + 1) (Motor.rating motor) (Motor.quantity motor)
        (Motor.current_class motor)
        (Locals.energy_savings_motor v) (Locals.cost_savings_motor v)
        (py_max (Locals.upgrade_cost v) (of_int 100))
        payback_years).

Definition motor_vfd (i : Z) (motor : Motor.t F) : py (Vfd.t F) :=
  '(vfd_energy_savings, vfd_cost_savings, vfd_savings_pct) <-
     calculate_vfd_savings (Motor.load_factor motor) (Motor.rating motor)
       (total_hours * Motor.quantity motor) electricity_cost ;;
  let vfd_cost := Motor.rating motor * of_int (Motor.quantity motor) * of_int 100 in
  payback_years <- payback_of vfd_cost vfd_cost_savings ;;
  Ok (Vfd.mk (i + 1) (Motor.rating motor) (Motor.quantity motor)
        vfd_energy_savings vfd_cost_savings vfd_cost payback_years vfd_savings_pct).

(** What the motor loop updates. *)
Record loop_state : Type := {
  motor_upgrades : list (Upgrade.t F);
  vfd_savings : list (Vfd.t F);
  total_motor_upgrade_savings : F;
  total_motor_upgrade_cost : F;
  total_vfd_savings : F;
  total_vfd_cost : F
}.

Definition loop_init : loop_state :=
  {| motor_upgrades := []; vfd_savings := [];
     total_motor_upgrade_savings := of_int 0; total_motor_upgrade_cost := of_int 0;
     total_vfd_savings := of_int 0; total_vfd_cost := of_int 0 |}.

Definition motor_step (st : loop_state) (i : Z) (motor : Motor.t F) : py loop_state :=
  u <- motor_upgrade i motor ;;
  let st1 :=
    {| motor_upgrades := motor_upgrades st ++ [u];
       vfd_savings := vfd_savings st;
       total_motor_upgrade_savings := total_motor_upgrade_savings st + Upgrade.cost_savings u;
       total_motor_upgrade_cost := total_motor_upgrade_cost st + Upgrade.upgrade_cost u;
       total_vfd_savings := total_vfd_savings st;
       total_vfd_cost := total_vfd_cost st |} in
  if Motor.vfd_applicable motor then
    v <- motor_vfd i motor ;;
    Ok {| motor_upgrades := motor_upgrades st1;
          vfd_savings := vfd_savings st1 ++ [v];
          total_motor_upgrade_savings := total_motor_upgrade_savings st1;
          total_motor_upgrade_cost := total_motor_upgrade_cost st1;
          total_vfd_savings := total_vfd_savings st1 + Vfd.cost_savings v;
          total_vfd_cost := total_vfd_cost st1 + Vfd.vfd_cost v |}
  else Ok st1.

(** [for i, motor in enumerate(motors_data)], from index [i]. *)
Fixpoint motor_loop (i : Z) (motors_data : list (Motor.t F)) (st : loop_state) : py loop_state :=
  match motors_data with
  | [] => Ok st
  | motor :: rest =>
      st' <- motor_step st i motor ;;
      motor_loop (i + 1) rest st'
  end.

Definition lighting_retrofit : py (Lighting.t F) :=
  current_lighting_energy <-
    calculate_lighting_energy num_fixtures wattage_per (daily_hours * operating_days) ;;
  led_energy <-
    calculate_lighting_energy num_fixtures led_wattage (daily_hours * operating_days) ;;
  let lighting_energy_savings := current_lighting_energy - led_energy in
  let lighting_cost_savings := lighting_energy_savings * electricity_cost in
  led <- getitem LIGHTING_TYPES "LED" ;;
  let lighting_retrofit_cost := (num_fixtures * cost_per_unit led * 10)%Z in
  payback_years <- payback_of (of_int lighting_retrofit_cost) lighting_cost_savings ;;
  Ok (Lighting.mk current_lighting_energy led_energy lighting_energy_savings
        lighting_cost_savings lighting_retrofit_cost payback_years).

(** The [results] dictionary and the three headline figures.  The delta
    of the cost metric divides the cost savings by the tariff; its value
    is only printed, its failure is the run's.  The other deltas multiply,
    or divide by the literal 5. *)
Record simulation : Type := {
  results : loop_state;
  results_lighting_retrofit : Lighting.t F;
  total_energy_savings : F;
  total_cost_savings : F;
  co2_reduction : F
}.

Definition run_simulation (motors_data : list (Motor.t F)) : py simulation :=
  st <- motor_loop 0 motors_data loop_init ;;
  lighting <- lighting_retrofit ;;
  let total_energy_savings :=
    py_sum (map Upgrade.energy_savings (motor_upgrades st))
    + py_sum (map Vfd.energy_savings (vfd_savings st))
    + Lighting.energy_savings lighting in
  let total_cost_savings :=
    py_sum (map Upgrade.cost_savings (motor_upgrades st))
    + py_sum (map Vfd.cost_savings (vfd_savings st))
    + Lighting.cost_savings lighting in
  _ <- truediv total_cost_savings electricity_cost ;;
  co2_reduction <- truediv (total_energy_savings * carbon_factor) (of_int 1000) ;;
  Ok {| results := st; results_lighting_retrofit := lighting;
        total_energy_savings := total_energy_savings;
        total_cost_savings := total_cost_savings;
        co2_reduction := co2_reduction |}.

(** *** Tab 4: the recommendations *)

Definition priority_of (payback_years : F) : string :=
  if leb payback_years (of_int 2) then "High"%string else "Medium"%string.

Definition sort_key_of (payback_years : F) : py F :=
  if ltb (of_int 0) payback_years then truediv (of_int 1) payback_years else Ok (of_int 0).

Fixpoint add_motor_upgrades (recommendations : list (Rec.t F)) (motors : list (Upgrade.t F))
  : py (list (Rec.t F)) :=
  match motors with
  | [] => Ok recommendations
  | motor :: rest =>
      if leb (Upgrade.payback_years motor) (of_int 5) then
        suffix <- str_last (Upgrade.current_class motor) ;;
        k <- sort_key_of (Upgrade.payback_years motor) ;;
        add_motor_upgrades
          (recommendations ++
             [Rec.mk "Motor Upgrade"
                (Rec.OfMotor (Upgrade.motor_id motor) suffix
                   (Upgrade.rating motor) (Upgrade.quantity motor))
                (Upgrade.upgrade_cost motor) (Upgrade.cost_savings motor)
                (Upgrade.payback_years motor)
                (priority_of (Upgrade.payback_years motor)) k])
          rest
      else add_motor_upgrades recommendations rest
  end.

Fixpoint add_vfd_installations (recommendations : list (Rec.t F)) (vfds : list (Vfd.t F))
  : py (list (Rec.t F)) :=
  match vfds with
  | [] => Ok recommendations
  | vfd :: rest =>
      if leb (Vfd.payback_years vfd) (of_int 4) then
        k <- sort_key_of (Vfd.payback_years vfd) ;;
        add_vfd_installations
          (recommendations ++
             [Rec.mk "VFD Installation"
                (Rec.OfVfd (Vfd.motor_id vfd) (Vfd.rating vfd) (Vfd.quantity vfd))
                (Vfd.vfd_cost vfd) (Vfd.cost_savings vfd)
                (Vfd.payback_years vfd)
                (priority_of (Vfd.payback_years vfd)) k])
          rest
      else add_vfd_installations recommendations rest
  end.

Definition add_lighting_retrofit (recommendations : list (Rec.t F)) (lighting : Lighting.t F)
  : py (list (Rec.t F)) :=
  if leb (Lighting.payback_years lighting) (of_int 5) then
    k <- sort_key_of (Lighting.payback_years lighting) ;;
    Ok (recommendations ++
          [Rec.mk "Lighting Retrofit"
             (Rec.OfLighting num_fixtures led_wattage)
             (of_int (Lighting.retrofit_cost lighting)) (Lighting.cost_savings lighting)
             (Lighting.payback_years lighting)
             (priority_of (Lighting.payback_years lighting)) k])
  else Ok recommendations.

(** The list before it is sorted. *)
Definition collect (motors : list (Upgrade.t F)) (vfds : list (Vfd.t F))
    (lighting : Lighting.t F) : py (list (Rec.t F)) :=
  r1 <- add_motor_upgrades [] motors ;;
  r2 <- add_vfd_installations r1 vfds ;;
  add_lighting_retrofit r2 lighting.

(** [list.sort(key=..., reverse=True)].  The language reference fixes the
    result: the sort is stable, and [reverse] keeps entries with equal
    keys in their original order.  Entries are inserted from the right;
    an entry passes those with a strictly larger key and stops before the
    first entry whose key is not larger. *)
Fixpoint insert_desc {A : Type} (key : A -> F) (x : A) (l : list A) : list A :=
  match l with
  | [] => [x]
  | y :: l' => if ltb (key x) (key y) then y :: insert_desc key x l' else x :: l
  end.

Fixpoint sort_reverse {A : Type} (key : A -> F) (l : list A) : list A :=
  match l with
  | [] => []
  | x :: l' => insert_desc key x (sort_reverse key l')
  end.

Definition recommend (motors : list (Upgrade.t F)) (vfds : list (Vfd.t F))
    (lighting : Lighting.t F) : py (list (Rec.t F)) :=
  recommendations <- collect motors vfds lighting ;;
  Ok (sort_reverse Rec.sort_key recommendations).

End Simulation.

End Engine.

(** ** The rest of the page *)

Section Page.

Context {F : Type} `{Number F}.

(** *** Default inventories *)

Definition default_motors : list (string * list (DefaultMotor.t F)) :=
  [ ("Textile"%string,
     [ DefaultMotor.mk (of_int 15) 8 (lit 0.75) "IE2";
       DefaultMotor.mk (of_int 22) 6 (lit 0.80) "IE2";
       DefaultMotor.mk (of_int 37) 4 (lit 0.70) "IE2";
       DefaultMotor.mk (of_int 55) 2 (lit 0.85) "IE1" ]);
    ("Automotive"%string,
     [ DefaultMotor.mk (lit 18.5) 10 (lit 0.65) "IE2";
       DefaultMotor.mk (of_int 30) 8 (lit 0.75) "IE2";
       DefaultMotor.mk (of_int 45) 6 (lit 0.80) "IE2";
       DefaultMotor.mk (of_int 75) 3 (lit 0.70) "IE1" ]);
    ("Food Processing"%string,
     [ DefaultMotor.mk (of_int 11) 12 (lit 0.60) "IE2";
       DefaultMotor.mk (lit 18.5) 8 (lit 0.70) "IE2";
       DefaultMotor.mk (of_int 22) 6 (lit 0.75) "IE2";
       DefaultMotor.mk (of_int 37) 4 (lit 0.65) "IE1" ]) ].

Definition get_default_motors (factory_type : string) : py (list (DefaultMotor.t F)) :=
  textile <- getitem default_motors "Textile" ;;
  Ok (get_or default_motors factory_type textile).

Definition default_lighting : list (string * DefaultLighting.t) :=
  [ ("Textile"%string, DefaultLighting.mk "Fluorescent" 200 40 16);
    ("Automotive"%string, DefaultLighting.mk "Metal Halide" 150 250 24);
    ("Food Processing"%string, DefaultLighting.mk "Fluorescent" 180 60 20) ].

Definition get_default_lighting (factory_type : string) : py DefaultLighting.t :=
  textile <- getitem default_lighting "Textile" ;;
  Ok (get_or default_lighting factory_type textile).

(** [xs.index(x)]; [None] stands for the [ValueError] of a value that is
    not in the list. *)
Fixpoint list_index (x : string) (xs : list string) : option nat :=
  match xs with
  | [] => None
  | y :: xs' => if String.eqb y x then Some O else option_map S (list_index x xs')
  end.

(** The argument [index] of the class select box of one motor, and of the
    lighting type select box. *)
Definition class_index (motor : DefaultMotor.t F) : option nat :=
  list_index (DefaultMotor.current_class motor) ["IE1"; "IE2"; "IE3"; "IE4"]%string.

Definition lighting_type_index (d : DefaultLighting.t) : option nat :=
  list_index (DefaultLighting.type d) (map fst LIGHTING_TYPES).

(** The initial value of the VFD check box of a motor. *)
Definition vfd_default (load_factor : F) : bool := ltb load_factor (lit 0.8).

(** *** The two savings percentages of the lighting pages *)

(** Tab 2: the metric is shown only [if current_energy > 0]. *)
Definition potential_savings (current_energy led_energy : F) : py (option F) :=
  if ltb (of_int 0) current_energy then
    r <- truediv (sub current_energy led_energy) current_energy ;;
    Ok (Some (mul r (of_int 100)))
  else Ok None.

(** Tab 3: the delta of the energy savings metric. *)
Definition energy_savings_delta (lighting_data : Lighting.t F) : py F :=
  r <- truediv (Lighting.energy_savings lighting_data) (Lighting.current_energy lighting_data) ;;
  Ok (mul r (of_int 100)).

(** *** The 10-year projection *)

(** [list(range(1, 11))] *)
Definition years : list Z := [1; 2; 3; 4; 5; 6; 7; 8; 9; 10]%Z.

Definition cumulative_savings (total_cost_savings : F) : list F :=
  map (fun y => mul total_cost_savings (of_int y)) years.

Definition cumulative_cost (total_motor_upgrade_cost total_vfd_cost : F)
    (lighting_retrofit_cost : Z) : list F :=
  repeat (add (add total_motor_upgrade_cost total_vfd_cost) (of_int lighting_retrofit_cost))
         (List.length years).

(** [xs[i]] for an index that is not negative. *)
Definition item {A : Type} (xs : list A) (i : nat) : py A :=
  match nth_error xs i with
  | Some x => Ok x
  | None => Raise IndexError
  end.

(** A list comprehension whose body may raise. *)
Fixpoint comprehension {A B : Type} (body : A -> py B) (xs : list A) : py (list B) :=
  match xs with
  | [] => Ok []
  | x :: xs' =>
      b <- body x ;;
      bs <- comprehension body xs' ;;
      Ok (b :: bs)
  end.

(** [[cumulative_savings[i] - cumulative_cost[0] for i in range(len(years))]] *)
Definition net_savings (savings costs : list F) : py (list F) :=
  comprehension
    (fun i => s <- item savings i ;; c0 <- item costs 0 ;; Ok (sub s c0))
    (seq 0 (List.length years)).

(** The search loop over [enumerate(net_savings)], from index [i]: the
    year of the first net saving that is not negative. *)
Fixpoint find_break_even (i : nat) (net : list F) : py (option Z) :=
  match net with
  | [] => Ok None
  | n :: net' =>
      if leb (of_int 0) n then
        y <- item years i ;;
        Ok (Some y)
      else find_break_even (S i) net'
  end.

Definition break_even (total_cost_savings total_motor_upgrade_cost total_vfd_cost : F)
    (lighting_retrofit_cost : Z) : py (option Z) :=
  net <- net_savings (cumulative_savings total_cost_savings)
           (cumulative_cost total_motor_upgrade_cost total_vfd_cost lighting_retrofit_cost) ;;
  find_break_even 0 net.

(** [if break_even:] shows the success message; an integer is true when
    it is not zero. *)
Definition shows_break_even (b : option Z) : bool :=
  match b with
  | Some y => negb (y =? 0)%Z
  | None => false
  end.

(** *** The implementation roadmap *)

Section RoadmapRows.

(* [datetime.now().year] *)
Variable current_year : Z.
(* the number read back from the text of an entry's payback, which the
   source prints with one decimal *)
Variable shown_payback : Rec.t F -> F.
(* [int(x)] *)
Variable to_int : F -> Z.

(** [min(6, int(payback*12))] *)
Definition duration (rec : Rec.t F) : Z :=
  Z.min 6 (to_int (mul (shown_payback rec) (of_int 12))).

Fixpoint roadmap_loop (i : Z) (recs : list (Rec.t F)) (roadmap_data : list (Roadmap.t F))
  : list (Roadmap.t F) :=
  match recs with
  | [] => roadmap_data
  | rec :: rest =>
      let data1 :=
        roadmap_data ++
        [Roadmap.mk current_year "Phase 1" (Rec.descr rec) (duration rec) (Rec.priority rec)] in
      let data2 :=
        if (2 <=? i)%Z then
          data1 ++
          [Roadmap.mk (current_year + 1) "Phase 2" (Rec.descr rec) (duration rec)
             (Rec.priority rec)]
        else data1 in
      roadmap_loop (i + 1) rest data2
  end.

(** [for i, rec in enumerate(recommendations[:5])] *)
Definition roadmap (recommendations : list (Rec.t F)) : list (Roadmap.t F) :=
  roadmap_loop 0 (firstn 5 recommendations) [].

End RoadmapRows.

End Page.

(** * Vocabulary of the statements

    Everything below is stated in the exact model, the engine over [Q],
    unless a statement names [float]. *)

Open Scope Q_scope.

(** ** Curves *)

(** The straight line through [(x1, y1)] and [(x2, y2)], as the loop
    body writes it. *)
Definition segment (x1 y1 x2 y2 x : Q) : Q :=
  y1 + (y2 - y1) * (x - x1) / (x2 - x1).

(** The five curves of the source share their load points. *)
Definition anchors4 (y0 y1 y2 y3 : Q) : curve :=
  [(0.25, y0); (0.50, y1); (0.75, y2); (1.00, y3)].

Definition piecewise4 (y0 y1 y2 y3 x : Q) : Q :=
  if Qle_bool 0.25 x && Qle_bool x 0.50 then segment 0.25 y0 0.50 y1 x
  else if Qle_bool 0.50 x && Qle_bool x 0.75 then segment 0.50 y1 0.75 y2 x
  else if Qle_bool 0.75 x && Qle_bool x 1.00 then segment 0.75 y2 1.00 y3 x
  else if Qle_bool 1.0 x then y3
  else y0.

(** The curve [get_efficiency] reads for a class: the class's own, or
    IE2's for a name that is not a key. *)
Definition curve_of {F : Type} `{Number F} (efficiency_class : string) : list (F * F) :=
  match dict_get "IE2" EFFICIENCY_CURVES with
  | Some ie2 => get_or EFFICIENCY_CURVES efficiency_class ie2
  | None => []
  end.

(** Every curve of the program: the four efficiency curves, then the VFD
    savings curve. *)
Definition all_curves {F : Type} `{Number F} : list (list (F * F)) :=
  map snd EFFICIENCY_CURVES ++ [vfd_savings_curve].

(** ** Motor groups used as examples *)

Definition example_motor {F : Type} `{Number F} : Motor.t F :=
  Motor.mk (of_int 15) 8 (lit 0.75) "IE2" true.



Definition ie1_motor : Motor.t Q := Motor.mk 55 2 0.85 "IE1" false.

Definition with_class (motor : Motor.t Q) (c : string) : Motor.t Q :=
  Motor.mk (Motor.rating motor) (Motor.quantity motor) (Motor.load_factor motor) c
    (Motor.vfd_applicable motor).


(** ** The motor loop *)

(** [enumerate(motors_data)], counted from [i]. *)
Fixpoint enumerate {A : Type} (i : Z) (l : list A) : list (Z * A) :=
  match l with
  | [] => []
  | x :: l' => (i, x) :: enumerate (i + 1) l'
  end.

(** A record of the upgrade list is the evaluation of the motor at that
    position, and a record of the VFD list the evaluation of a motor whose
    box is ticked. *)
Definition upgrade_of (total_hours : Z) (electricity_cost : Q)
    (im : Z * Motor.t Q) (u : Upgrade.t Q) : Prop :=
  motor_upgrade total_hours electricity_cost (fst im) (snd im) = Ok u.

Definition vfd_of (total_hours : Z) (electricity_cost : Q)
    (im : Z * Motor.t Q) (v : Vfd.t Q) : Prop :=
  motor_vfd total_hours electricity_cost (fst im) (snd im) = Ok v.

Definition ticked (im : Z * Motor.t Q) : bool := Motor.vfd_applicable (snd im).

(** ** Ranking *)

Definition descending {A : Type} (key : A -> Q) (l : list A) : Prop :=
  StronglySorted (fun a b => key b <= key a) l.

(** The entries whose key is [k], in the order of the list. *)
Definition with_key {A : Type} (key : A -> Q) (k : Q) (l : list A) : list A :=
  filter (fun a => Qeq_bool (key a) k) l.

Definition rank_key (payback_years : Q) : Q :=
  if Qle_bool payback_years 0 then 0 else 1 / payback_years.

(** The last character of a class name; the zero character stands in
    for the empty name, which has none. *)
Definition class_suffix (c : string) : ascii :=
  match str_last c with
  | Ok a => a
  | Raise _ => Ascii.zero
  end.

(** A motor upgrade whose description can be printed: its class name has
    a last character. *)
Definition printable (motor : Upgrade.t Q) : bool :=
  succeeds (str_last (Upgrade.current_class motor)).

(** Every motor upgrade within its ceiling has a class name that is not
    empty. *)
Definition classes_printable (motors : list (Upgrade.t Q)) : Prop :=
  forall m, In m motors -> Upgrade.payback_years m <= 5 ->
            Upgrade.current_class m <> ""%string.

Definition motor_entry (motor : Upgrade.t Q) : Rec.t Q :=
  Rec.mk "Motor Upgrade"
    (Rec.OfMotor (Upgrade.motor_id motor) (class_suffix (Upgrade.current_class motor))
       (Upgrade.rating motor) (Upgrade.quantity motor))
    (Upgrade.upgrade_cost motor) (Upgrade.cost_savings motor) (Upgrade.payback_years motor)
    (priority_of (Upgrade.payback_years motor)) (rank_key (Upgrade.payback_years motor)).

Definition vfd_entry (vfd : Vfd.t Q) : Rec.t Q :=
  Rec.mk "VFD Installation"
    (Rec.OfVfd (Vfd.motor_id vfd) (Vfd.rating vfd) (Vfd.quantity vfd))
    (Vfd.vfd_cost vfd) (Vfd.cost_savings vfd) (Vfd.payback_years vfd)
    (priority_of (Vfd.payback_years vfd)) (rank_key (Vfd.payback_years vfd)).

Definition lighting_entry (num_fixtures led_wattage : Z) (lighting : Lighting.t Q) : Rec.t Q :=
  Rec.mk "Lighting Retrofit" (Rec.OfLighting num_fixtures led_wattage)
    (inject_Z (Lighting.retrofit_cost lighting)) (Lighting.cost_savings lighting)
    (Lighting.payback_years lighting)
    (priority_of (Lighting.payback_years lighting)) (rank_key (Lighting.payback_years lighting)).

(** The entries that pass their ceiling, in input order: motor upgrades,
    then VFDs, then the lighting retrofit. *)
Definition candidates (num_fixtures led_wattage : Z)
    (motors : list (Upgrade.t Q)) (vfds : list (Vfd.t Q)) (lighting : Lighting.t Q)
  : list (Rec.t Q) :=
  map motor_entry (filter (fun m => Qle_bool (Upgrade.payback_years m) 5) motors)
  ++ map vfd_entry (filter (fun v => Qle_bool (Vfd.payback_years v) 4) vfds)
  ++ (if Qle_bool (Lighting.payback_years lighting) 5
      then [lighting_entry num_fixtures led_wattage lighting] else []).

(** The ceiling of the category an entry belongs to. *)
Definition within_ceiling (r : Rec.t Q) : Prop :=
  (Rec.type r = "Motor Upgrade"%string /\ Rec.payback r <= 5)
  \/ (Rec.type r = "VFD Installation"%string /\ Rec.payback r <= 4)
  \/ (Rec.type r = "Lighting Retrofit"%string /\ Rec.payback r <= 5).

(** ** Vocabulary of the further properties *)

(** A motor group declared in another class. *)
Definition set_class {F : Type} (motor : Motor.t F) (c : string) : Motor.t F :=
  Motor.mk (Motor.rating motor) (Motor.quantity motor) (Motor.load_factor motor) c
    (Motor.vfd_applicable motor).

(** A name that is no key of the class tables. *)
Definition unknown_class (c : string) : Prop :=
  c <> "IE1"%string /\ c <> "IE2"%string /\ c <> "IE3"%string /\ c <> "IE4"%string.

(** The ranges of the widgets of the motor audit (rating, quantity, load
    factor) and the classes its select box offers. *)
Definition motor_in_widget_ranges (d : DefaultMotor.t Q) : Prop :=
  0.75 <= DefaultMotor.rating d <= 500
  /\ (1 <= DefaultMotor.quantity d <= 100)%Z
  /\ 0.1 <= DefaultMotor.load_factor d <= 1
  /\ exists n, class_index d = Some n.

(** The ranges of the widgets of the lighting audit and the types its
    select box offers. *)
Definition lighting_in_widget_ranges (d : DefaultLighting.t) : Prop :=
  (1 <= DefaultLighting.fixtures d <= 1000)%Z
  /\ (10 <= DefaultLighting.wattage d <= 1000)%Z
  /\ (1 <= DefaultLighting.hours_per_day d <= 24)%Z
  /\ exists n, lighting_type_index d = Some n.

(** Never decreasing paybacks along a list of recommendations. *)
Definition payback_ascending (l : list (Rec.t Q)) : Prop :=
  StronglySorted (fun a b => Rec.payback a <= Rec.payback b) l.

(** The rows of a phase, in the order of the roadmap. *)
Definition rows_of_phase (phase : string) (rows : list (Roadmap.t Q)) : list (Roadmap.t Q) :=
  filter (fun r => String.eqb (Roadmap.Phase r) phase) rows.

(** Results used as an example of ranking. *)
Definition quick_upgrade : Upgrade.t Q := Upgrade.mk 1 15 8 "IE2" 25000 3000 4200 (7 # 5).
Definition slow_vfd : Vfd.t Q := Vfd.mk 1 15 8 43200 5184 12000 (5 # 2) 10.
Definition slow_lighting : Lighting.t Q := Lighting.mk 38400 15360 23040 2764 30000 11.

(** * Proofs *)

(** ** One segment of a curve *)

#[export] Instance segment_compat :
  Proper (Qeq ==> Qeq ==> Qeq ==> Qeq ==> Qeq ==> Qeq) segment.
Proof.
  intros x1 x1' E1 y1 y1' E2 x2 x2' E3 y2 y2' E4 x x' E5. unfold segment.
  rewrite E1, E2, E3, E4, E5. reflexivity.
Qed.

Lemma segment_at_left x1 y1 x2 y2 : x1 < x2 -> segment x1 y1 x2 y2 x1 == y1.
Proof. intros Hx. unfold segment. field. lra. Qed.

Lemma segment_at_right x1 y1 x2 y2 : x1 < x2 -> segment x1 y1 x2 y2 x2 == y2.
Proof. intros Hx. unfold segment. field. lra. Qed.

Lemma segment_step x1 y1 x2 y2 a b :
  x1 < x2 ->
  segment x1 y1 x2 y2 b - segment x1 y1 x2 y2 a == (y2 - y1) * ((b - a) / (x2 - x1)).
Proof. intros Hx. unfold segment. field. lra. Qed.

Lemma ratio_nonneg a b x1 x2 : x1 < x2 -> a <= b -> 0 <= (b - a) / (x2 - x1).
Proof.
  intros Hx Hab. unfold Qdiv. apply Qmult_le_0_compat; [lra|].
  apply Qlt_le_weak, Qinv_lt_0_compat. lra.
Qed.

Lemma segment_increasing x1 y1 x2 y2 a b :
  x1 < x2 -> y1 <= y2 -> a <= b -> segment x1 y1 x2 y2 a <= segment x1 y1 x2 y2 b.
Proof.
  intros Hx Hy Hab.
  pose proof (segment_step y1 y2 a b Hx) as E.
  pose proof (ratio_nonneg Hx Hab) as R.
  assert (0 <= (y2 - y1) * ((b - a) / (x2 - x1))) by (apply Qmult_le_0_compat; lra).
  lra.
Qed.

Lemma segment_decreasing x1 y1 x2 y2 a b :
  x1 < x2 -> y2 <= y1 -> a <= b -> segment x1 y1 x2 y2 b <= segment x1 y1 x2 y2 a.
Proof.
  intros Hx Hy Hab.
  pose proof (segment_step y1 y2 a b Hx) as E.
  pose proof (ratio_nonneg Hx Hab) as R.
  assert (0 <= (y1 - y2) * ((b - a) / (x2 - x1))) by (apply Qmult_le_0_compat; lra).
  assert ((y1 - y2) * ((b - a) / (x2 - x1)) == - ((y2 - y1) * ((b - a) / (x2 - x1)))) by ring.
  lra.
Qed.

Lemma lookup_anchors4 y0 y1 y2 y3 x :
  lookup (anchors4 y0 y1 y2 y3) x = Ok (piecewise4 y0 y1 y2 y3 x).
Proof.
  unfold lookup, anchors4, piecewise4, segment.
  cbn [map fst snd interpolate leb Number_Q].
  destruct (Qle_bool 0.25 x && Qle_bool x 0.50); [reflexivity|].
  destruct (Qle_bool 0.50 x && Qle_bool x 0.75); [reflexivity|].
  destruct (Qle_bool 0.75 x && Qle_bool x 1.00); [reflexivity|].
  cbn [bind lit Number_Q].
  destruct (Qle_bool 1.0 x); reflexivity.
Qed.

Lemma segment_between x1 y1 x2 y2 x :
  x1 < x2 -> y1 <= y2 -> x1 <= x <= x2 ->
  y1 <= segment x1 y1 x2 y2 x <= y2.
Proof.
  intros Hx Hy [Hl Hr].
  pose proof (segment_increasing Hx Hy Hl) as L.
  pose proof (segment_increasing Hx Hy Hr) as R.
  rewrite (segment_at_left y1 y2 Hx) in L.
  rewrite (segment_at_right y1 y2 Hx) in R.
  split; assumption.
Qed.

Lemma segment_between_desc x1 y1 x2 y2 x :
  x1 < x2 -> y2 <= y1 -> x1 <= x <= x2 ->
  y2 <= segment x1 y1 x2 y2 x <= y1.
Proof.
  intros Hx Hy [Hl Hr].
  pose proof (segment_decreasing Hx Hy Hl) as L.
  pose proof (segment_decreasing Hx Hy Hr) as R.
  rewrite (segment_at_left y1 y2 Hx) in L.
  rewrite (segment_at_right y1 y2 Hx) in R.
  split; assumption.
Qed.

(** Case analysis on the comparisons of a goal, each turned into an
    inequality of [Q]. *)
Ltac split_tests :=
  repeat match goal with
  | |- context [Qle_bool ?a ?b] =>
      let E := fresh "T" in
      destruct (Qle_bool a b) eqn:E;
      [ apply Qle_bool_iff in E
      | apply not_true_iff_false in E; rewrite Qle_bool_iff in E; apply Qnot_le_lt in E ];
      cbn [andb negb]
  end.

(** Bounds of every segment that occurs in the goal, by [lem]. *)
Ltac bound_segments lem :=
  repeat match goal with
  | |- context [segment ?x1 ?y1 ?x2 ?y2 ?x] =>
      lazymatch goal with
      | _ : _ <= segment x1 y1 x2 y2 x <= _ |- _ => fail
      | _ => pose proof (@lem x1 y1 x2 y2 x ltac:(lra) ltac:(lra) ltac:(lra))
      end
  end.

Lemma piecewise4_below y0 y1 y2 y3 x :
  x < 0.25 -> piecewise4 y0 y1 y2 y3 x = y0.
Proof. intros Hx. unfold piecewise4. split_tests; try reflexivity; lra. Qed.

Lemma piecewise4_above y0 y1 y2 y3 x :
  1.00 <= x -> piecewise4 y0 y1 y2 y3 x == y3.
Proof.
  intros Hx. unfold piecewise4. split_tests; try reflexivity; try lra.
  assert (E : x == 1.00) by lra. rewrite E. apply segment_at_right. lra.
Qed.

Lemma piecewise4_first y0 y1 y2 y3 x :
  0.25 <= x <= 0.50 -> piecewise4 y0 y1 y2 y3 x = segment 0.25 y0 0.50 y1 x.
Proof. intros Hx. unfold piecewise4. split_tests; try reflexivity; lra. Qed.

Lemma piecewise4_second y0 y1 y2 y3 x :
  0.50 <= x <= 0.75 -> piecewise4 y0 y1 y2 y3 x == segment 0.50 y1 0.75 y2 x.
Proof.
  intros Hx. unfold piecewise4. split_tests; try reflexivity; try lra.
  assert (E : x == 0.50) by lra. rewrite E.
  rewrite segment_at_right, segment_at_left by lra. reflexivity.
Qed.

Lemma piecewise4_third y0 y1 y2 y3 x :
  0.75 <= x <= 1.00 -> piecewise4 y0 y1 y2 y3 x == segment 0.75 y2 1.00 y3 x.
Proof.
  intros Hx. unfold piecewise4. split_tests; try reflexivity; try lra.
  assert (E : x == 0.75) by lra. rewrite E.
  rewrite segment_at_right, segment_at_left by lra. reflexivity.
Qed.

Lemma piecewise4_increasing y0 y1 y2 y3 a b :
  y0 <= y1 -> y1 <= y2 -> y2 <= y3 -> a <= b ->
  piecewise4 y0 y1 y2 y3 a <= piecewise4 y0 y1 y2 y3 b.
Proof.
  intros H01 H12 H23 Hab. unfold piecewise4.
  split_tests; try lra;
    try (apply segment_increasing; lra);
    bound_segments segment_between; lra.
Qed.

Lemma piecewise4_decreasing y0 y1 y2 y3 a b :
  y1 <= y0 -> y2 <= y1 -> y3 <= y2 -> a <= b ->
  piecewise4 y0 y1 y2 y3 b <= piecewise4 y0 y1 y2 y3 a.
Proof.
  intros H01 H12 H23 Hab. unfold piecewise4.
  split_tests; try lra;
    try (apply segment_decreasing; lra);
    bound_segments segment_between_desc; lra.
Qed.

Lemma piecewise4_range y0 y1 y2 y3 x :
  y0 <= y1 -> y1 <= y2 -> y2 <= y3 -> y0 <= piecewise4 y0 y1 y2 y3 x <= y3.
Proof.
  intros H01 H12 H23. unfold piecewise4.
  split_tests; try lra; bound_segments segment_between; lra.
Qed.

(** ** The curves of the source *)

Lemma get_efficiency_lookup {F : Type} `{Number F} cls (x : F) :
  get_efficiency cls x = lookup (curve_of cls) x.
Proof. reflexivity. Qed.

Lemma curve_of_cases (cls : string) :
  curve_of (F:=Q) cls = anchors4 0.78 0.85 0.88 0.89 \/
  curve_of (F:=Q) cls = anchors4 0.82 0.88 0.90 0.91 \/
  curve_of (F:=Q) cls = anchors4 0.85 0.90 0.92 0.93 \/
  curve_of (F:=Q) cls = anchors4 0.88 0.93 0.95 0.96.
Proof.
  unfold curve_of, get_or, EFFICIENCY_CURVES. cbn [dict_get String.eqb Ascii.eqb Bool.eqb].
  destruct (String.eqb cls "IE1"); [left; reflexivity|].
  destruct (String.eqb cls "IE2"); [right; left; reflexivity|].
  destruct (String.eqb cls "IE3"); [right; right; left; reflexivity|].
  destruct (String.eqb cls "IE4"); [right; right; right; reflexivity|].
  right; left; reflexivity.
Qed.

Lemma all_curves_cases (c : curve) :
  In c (all_curves (F:=Q)) ->
  exists y0 y1 y2 y3, c = anchors4 y0 y1 y2 y3.
Proof.
  unfold all_curves, EFFICIENCY_CURVES, vfd_savings_curve. cbn [map snd app In].
  intros [E|[E|[E|[E|[E|[]]]]]]; subst c; do 4 eexists; reflexivity.
Qed.

(** An efficiency is never zero, so the two divisions of the motor loop
    are defined. *)
Lemma get_efficiency_positive cls x :
  exists e, get_efficiency (F:=Q) cls x = Ok e /\ 0.78 <= e <= 0.96.
Proof.
  rewrite get_efficiency_lookup.
  destruct (curve_of_cases cls) as [E|[E|[E|E]]]; rewrite E, lookup_anchors4;
    eexists; (split; [reflexivity|]);
    match goal with
    | |- _ <= piecewise4 ?a ?b ?c ?d x <= _ =>
        pose proof (@piecewise4_range a b c d x ltac:(lra) ltac:(lra) ltac:(lra))
    end; lra.
Qed.

(** ** Interpolation contract *)

(** C4. For each of the program's five curves and every query [x], in exact
    arithmetic: when [x] lies in the interval between two consecutive
    anchors the lookup returns the linear interpolation between them; below
    the first anchor it returns the first anchor's value; at or above the
    last anchor it returns the last anchor's value. *)
Theorem lookup_contract (c : curve) (x : Q) :
  In c all_curves ->
  (forall i x1 y1 x2 y2,
      nth_error c i = Some (x1, y1) -> nth_error c (S i) = Some (x2, y2) ->
      x1 <= x <= x2 ->
      exists v, lookup c x = Ok v /\ v == y1 + (y2 - y1) * (x - x1) / (x2 - x1))
  /\ (forall x0 y0, first_item c = Ok (x0, y0) -> x < x0 -> lookup c x = Ok y0)
  /\ (forall xn yn, last_item c = Ok (xn, yn) -> xn <= x ->
      exists v, lookup c x = Ok v /\ v == yn).
Proof.
  intros Hc. destruct (all_curves_cases Hc) as (y0 & y1 & y2 & y3 & ->).
  rewrite lookup_anchors4. repeat split.
  - intros i x1 v1 x2 v2 H1 H2 Hx.
    destruct i as [|[|[|i]]]; cbn in H1, H2.
    + injection H1 as <- <-. injection H2 as <- <-.
      eexists; split; [reflexivity|]. rewrite piecewise4_first by exact Hx. reflexivity.
    + injection H1 as <- <-. injection H2 as <- <-.
      eexists; split; [reflexivity|]. apply piecewise4_second. exact Hx.
    + injection H1 as <- <-. injection H2 as <- <-.
      eexists; split; [reflexivity|]. apply piecewise4_third. exact Hx.
    + destruct i; discriminate H2.
  - intros x0 v0 H0 Hx. cbn in H0. injection H0 as <- <-.
    rewrite piecewise4_below by exact Hx. reflexivity.
  - intros xn vn Hn Hx. cbn in Hn. injection Hn as <- <-.
    eexists; split; [reflexivity|]. apply piecewise4_above. exact Hx.
Qed.

Lemma lookup_contract_witness :
  exists v, lookup (F:=Q) vfd_savings_curve 0.6 = Ok v
            /\ v == 0.25 + (0.10 - 0.25) * (0.6 - 0.50) / (0.75 - 0.50).
Proof.
  refine (proj1 (@lookup_contract vfd_savings_curve 0.6 _) 1%nat 0.50 0.25 0.75 0.10 _ _ _).
  - unfold all_curves. cbn. right; right; right; right; left. reflexivity.
  - reflexivity.
  - reflexivity.
  - split; unfold Qle; simpl; lia.
Defined.

(** C8. At a load factor equal to an anchor of a curve the lookup returns
    that anchor's value: as a rational in the exact model, and as the very
    binary64 value of the anchor in the floating model. *)
Theorem anchor_lookup_exact :
  (forall c x y, In c (all_curves (F:=Q)) -> In (x, y) c ->
     exists v, lookup c x = Ok v /\ v == y)
  /\ (forall c x y, In c (all_curves (F:=float)) -> In (x, y) c ->
     lookup c x = Ok y).
Proof.
  split.
  - intros c x y Hc Hxy.
    destruct (all_curves_cases Hc) as (y0 & y1 & y2 & y3 & ->).
    rewrite lookup_anchors4. eexists; split; [reflexivity|].
    destruct Hxy as [E|[E|[E|[E|[]]]]]; injection E as <- <-.
    + rewrite piecewise4_first by (split; unfold Qle; simpl; lia).
      apply segment_at_left. reflexivity.
    + rewrite piecewise4_first by (split; unfold Qle; simpl; lia).
      apply segment_at_right. reflexivity.
    + rewrite piecewise4_second by (split; unfold Qle; simpl; lia).
      apply segment_at_right. reflexivity.
    + rewrite piecewise4_third by (split; unfold Qle; simpl; lia).
      apply segment_at_right. reflexivity.
  - intros c x y Hc Hxy.
    unfold all_curves, EFFICIENCY_CURVES, vfd_savings_curve in Hc. cbn [map snd app In] in Hc.
    destruct Hc as [<-|[<-|[<-|[<-|[<-|[]]]]]];
      destruct Hxy as [E|[E|[E|[E|[]]]]]; injection E as <- <-;
      vm_compute; reflexivity.
Qed.

(** C9. In exact arithmetic the efficiency of every class never decreases
    as the load factor grows, and the VFD savings fraction never
    increases, over all load factors, the clamped ones included. *)
Theorem lookup_monotone (a b : Q) :
  a <= b ->
  (forall cls, exists ea eb,
      get_efficiency cls a = Ok ea /\ get_efficiency cls b = Ok eb /\ ea <= eb)
  /\ (exists sa sb,
      lookup vfd_savings_curve a = Ok sa /\ lookup vfd_savings_curve b = Ok sb /\ sb <= sa).
Proof.
  intros Hab. split.
  - intros cls. rewrite !get_efficiency_lookup.
    destruct (curve_of_cases cls) as [E|[E|[E|E]]]; rewrite E, !lookup_anchors4;
      do 2 eexists; (split; [reflexivity|]); (split; [reflexivity|]);
      apply piecewise4_increasing; lra.
  - change (vfd_savings_curve (F:=Q)) with (anchors4 0.40 0.25 0.10 0.00).
    rewrite !lookup_anchors4.
    do 2 eexists; (split; [reflexivity|]); (split; [reflexivity|]).
    apply piecewise4_decreasing; lra.
Qed.

Lemma lookup_monotone_witness :
  (forall cls, exists ea eb,
      get_efficiency (F:=Q) cls 0.3 = Ok ea /\ get_efficiency cls 0.8 = Ok eb /\ ea <= eb)
  /\ (exists sa sb,
      lookup (F:=Q) vfd_savings_curve 0.3 = Ok sa /\ lookup vfd_savings_curve 0.8 = Ok sb
      /\ sb <= sa).
Proof.
  apply (@lookup_monotone 0.3 0.8). unfold Qle; simpl; lia.
Defined.

(** ** The end-to-end example *)

(** A closed comparison of rationals, by evaluation. *)
Ltac qdecide :=
  lazymatch goal with
  | |- _ == _ => vm_compute; reflexivity
  | |- _ <= _ => apply Qle_bool_imp_le; vm_compute; reflexivity
  | |- _ < _ => apply Qlt_alt; vm_compute; reflexivity
  | |- _ = _ => vm_compute; reflexivity
  end.

Set Warnings "-inexact-float".

(** C1. The motor group of 8 motors of 15 kW at load factor 0.75, class
    IE2, with 4800 hours a year and 0.12 per kWh.  In exact arithmetic the
    efficiencies are 0.90 and 0.95, the shaft energy 432000, the input
    energies 480000 and 8640000/19 (454736.84 to two decimals), the energy
    savings 25263.16 and the cost savings 3031.58 to two decimals, the
    upgrade cost 15 * 8 * (85 - 50) = 4200 and the payback 1.39 to two
    decimals, at most 2, so the entry is recommended with priority High.
    In binary64 the run returns the record shown, with the same decimals. *)
Theorem end_to_end_example :
  (exists v r k,
      motor_locals (F:=Q) 4800 0.12 example_motor = Ok v
      /\ motor_upgrade (F:=Q) 4800 0.12 0 example_motor = Ok r
      /\ Locals.current_eff v == 0.90
      /\ Locals.ie4_eff v == 0.95
      /\ Locals.current_energy v == 432000
      /\ Locals.current_input v == 480000
      /\ Locals.ie4_input v == 8640000 / 19
      /\ 454736.835 <= Locals.ie4_input v < 454736.845
      /\ Upgrade.energy_savings r == Locals.current_input v - Locals.ie4_input v
      /\ 25263.155 <= Upgrade.energy_savings r < 25263.165
      /\ Upgrade.cost_savings r == Upgrade.energy_savings r * 0.12
      /\ 3031.575 <= Upgrade.cost_savings r < 3031.585
      /\ Locals.upgrade_cost v == 15 * 8 * (85 - 50)
      /\ Upgrade.upgrade_cost r == 4200
      /\ Upgrade.payback_years r == Upgrade.upgrade_cost r / Upgrade.cost_savings r
      /\ 1.385 <= Upgrade.payback_years r < 1.395
      /\ Upgrade.payback_years r <= 2
      /\ add_motor_upgrades [] [r] =
           Ok [Rec.mk "Motor Upgrade" (Rec.OfMotor 1 "2"%char 15 8)
                 (Upgrade.upgrade_cost r) (Upgrade.cost_savings r)
                 (Upgrade.payback_years r) "High" k])
  /\ motor_locals (F:=float) 4800 (lit 0.12) example_motor =
       Ok (Locals.mk (lit 0.90) 11.25 432000 480000 (lit 0.95) 454736.8421052632
             25263.157894736796 3031.5789473684154 4200)%float
  /\ motor_upgrade (F:=float) 4800 (lit 0.12) 0 example_motor =
       Ok (Upgrade.mk 1 15 8 "IE2" 25263.157894736796 3031.5789473684154 4200
             1.3854166666666692)%float
  /\ add_motor_upgrades (F:=float) []
       [Upgrade.mk 1 15 8 "IE2" 25263.157894736796 3031.5789473684154 4200
          1.3854166666666692]%float =
       Ok [Rec.mk "Motor Upgrade" (Rec.OfMotor 1 "2"%char 15 8) 4200 3031.5789473684154
             1.3854166666666692 "High" 0.72180451127819423]%float.
Proof.
  split; [|repeat split; vm_compute; reflexivity].
  do 3 eexists.
  split; [vm_compute; reflexivity|].
  split; [vm_compute; reflexivity|].
  cbn [Locals.current_eff Locals.ie4_eff Locals.current_energy Locals.current_input
       Locals.ie4_input Locals.upgrade_cost Upgrade.energy_savings Upgrade.cost_savings
       Upgrade.upgrade_cost Upgrade.payback_years].
  repeat match goal with
         | |- _ /\ _ => split
         end; qdecide.
Qed.

(** ** In exact arithmetic no division of the engine fails *)

Lemma truediv_defined (a b : Q) : ~ b == 0 -> truediv a b = Ok (a / b).
Proof.
  intros Hb. unfold truediv. cbn [is_zero quot Number_Q].
  destruct (Qeq_bool b 0) eqn:E; [|reflexivity].
  apply Qeq_bool_iff in E. contradiction.
Qed.

Lemma payback_of_exact (cost savings : Q) :
  payback_of cost savings = Ok (if Qle_bool savings 0 then 999 else cost / savings).
Proof.
  unfold payback_of. cbn [ltb of_int Number_Q]. change (inject_Z 0) with 0.
  destruct (Qle_bool savings 0) eqn:E; cbn [negb]; [reflexivity|].
  apply truediv_defined. intros Z. rewrite Z in E. discriminate E.
Qed.

Lemma sort_key_of_exact (p : Q) :
  sort_key_of p = Ok (if Qle_bool p 0 then 0 else 1 / p).
Proof.
  unfold sort_key_of. cbn [ltb of_int Number_Q]. change (inject_Z 0) with 0.
  destruct (Qle_bool p 0) eqn:E; cbn [negb]; [reflexivity|].
  apply truediv_defined. intros Z. rewrite Z in E. discriminate E.
Qed.

Section ExactSimulation.

Variable total_hours : Z.
Variable electricity_cost : Q.

Lemma motor_locals_exact (motor : Motor.t Q) :
  exists e e4,
    get_efficiency (Motor.current_class motor) (Motor.load_factor motor) = Ok e
    /\ get_efficiency "IE4" (Motor.load_factor motor) = Ok e4
    /\ 0.78 <= e <= 0.96 /\ 0.78 <= e4 <= 0.96
    /\ motor_locals total_hours electricity_cost motor =
       let shaft :=
         Motor.rating motor * Motor.load_factor motor * inject_Z total_hours
         * inject_Z (Motor.quantity motor) in
       Ok (Locals.mk e
             (Motor.rating motor * Motor.load_factor motor)
             shaft (shaft / e) e4 (shaft / e4)
             (shaft / e - shaft / e4)
             ((shaft / e - shaft / e4) * electricity_cost)
             (Motor.rating motor * inject_Z (Motor.quantity motor)
              * inject_Z (85 - get_or MOTOR_COSTS (Motor.current_class motor) 50)%Z)).
Proof.
  destruct (get_efficiency_positive (Motor.current_class motor) (Motor.load_factor motor))
    as (e & He & Be).
  destruct (get_efficiency_positive "IE4" (Motor.load_factor motor)) as (e4 & He4 & Be4).
  exists e, e4. repeat (split; [assumption|]).
  unfold motor_locals. rewrite He. cbn [bind].
  rewrite truediv_defined by lra. cbn [bind].
  rewrite He4. cbn [bind].
  rewrite truediv_defined by lra. reflexivity.
Qed.

Lemma motor_upgrade_exact (i : Z) (motor : Motor.t Q) :
  exists v,
    motor_locals total_hours electricity_cost motor = Ok v
    /\ motor_upgrade total_hours electricity_cost i motor =
       Ok (Upgrade.mk (i + 1) (Motor.rating motor) (Motor.quantity motor)
             (Motor.current_class motor)
             (Locals.energy_savings_motor v) (Locals.cost_savings_motor v)
             (py_max (Locals.upgrade_cost v) 100)
             (if Qle_bool (Locals.cost_savings_motor v) 0 then 999
              else py_max (Locals.upgrade_cost v) 100 / Locals.cost_savings_motor v)).
Proof.
  destruct (motor_locals_exact motor) as (e & e4 & _ & _ & _ & _ & Hv).
  cbv zeta in Hv. eexists. split; [exact Hv|].
  unfold motor_upgrade. rewrite Hv. cbn [bind].
  rewrite payback_of_exact. reflexivity.
Qed.

Lemma vfd_savings_fraction_exact (x : Q) :
  exists s, lookup vfd_savings_curve x = Ok s /\ 0 <= s <= 0.40.
Proof.
  change (vfd_savings_curve (F:=Q)) with (anchors4 0.40 0.25 0.10 0.00).
  rewrite lookup_anchors4. eexists; split; [reflexivity|].
  pose proof (@piecewise4_decreasing 0.40 0.25 0.10 0.00 x 1.00
                ltac:(lra) ltac:(lra) ltac:(lra)) as Hhi.
  pose proof (@piecewise4_decreasing 0.40 0.25 0.10 0.00 0 x
                ltac:(lra) ltac:(lra) ltac:(lra)) as Hlo.
  destruct (Qlt_le_dec x 0) as [N|P].
  - rewrite piecewise4_below by lra. lra.
  - specialize (Hlo P). rewrite (piecewise4_below 0.40 0.25 0.10 0.00 (x:=0)) in Hlo by lra.
    destruct (Qlt_le_dec 1.00 x) as [A|B].
    + rewrite piecewise4_above by lra. lra.
    + specialize (Hhi B). rewrite (piecewise4_above 0.40 0.25 0.10 0.00 (x:=1.00)) in Hhi by lra.
      lra.
Qed.

Lemma motor_vfd_exact (i : Z) (motor : Motor.t Q) :
  exists s,
    lookup vfd_savings_curve (Motor.load_factor motor) = Ok s
    /\ 0 <= s <= 0.40
    /\ motor_vfd total_hours electricity_cost i motor =
       let saved :=
         Motor.rating motor * Motor.load_factor motor
         * inject_Z (total_hours * Motor.quantity motor) * s in
       let cost := Motor.rating motor * inject_Z (Motor.quantity motor) * 100 in
       Ok (Vfd.mk (i + 1) (Motor.rating motor) (Motor.quantity motor)
             saved (saved * electricity_cost) cost
             (if Qle_bool (saved * electricity_cost) 0 then 999
              else cost / (saved * electricity_cost))
             (s * 100)).
Proof.
  destruct (vfd_savings_fraction_exact (Motor.load_factor motor)) as (s & Hs & Bs).
  exists s. repeat (split; [assumption|]).
  unfold motor_vfd, calculate_vfd_savings. rewrite Hs. cbn [bind].
  rewrite payback_of_exact. reflexivity.
Qed.

End ExactSimulation.

(** ** The quantity factor of the VFD path *)

(** C2. In exact arithmetic the energy a VFD saves for a motor group is
    rating * load factor * annual hours * quantity * savings fraction: the
    quantity enters once, through the hours the caller passes, and the
    saved energy is the shaft energy of the upgrade path times the
    fraction. *)
Theorem vfd_quantity_once (total_hours : Z) (electricity_cost : Q) (i : Z) (motor : Motor.t Q) :
  exists s v l,
    lookup vfd_savings_curve (Motor.load_factor motor) = Ok s
    /\ motor_vfd total_hours electricity_cost i motor = Ok v
    /\ motor_locals total_hours electricity_cost motor = Ok l
    /\ Vfd.energy_savings v ==
       Motor.rating motor * Motor.load_factor motor * inject_Z total_hours
       * inject_Z (Motor.quantity motor) * s
    /\ Locals.current_energy l ==
       Motor.rating motor * Motor.load_factor motor * inject_Z total_hours
       * inject_Z (Motor.quantity motor)
    /\ Vfd.energy_savings v == Locals.current_energy l * s.
Proof.
  destruct (motor_vfd_exact total_hours electricity_cost i motor) as (s & Hs & _ & Hv).
  destruct (motor_locals_exact total_hours electricity_cost motor)
    as (e & e4 & _ & _ & _ & _ & Hl).
  cbv zeta in Hv, Hl.
  exists s. eexists. eexists.
  split; [exact Hs|]. split; [exact Hv|]. split; [exact Hl|].
  cbn [Vfd.energy_savings Locals.current_energy].
  rewrite inject_Z_mult.
  repeat split; ring.
Qed.

(** ** The motor loop *)

Lemma enumerate_length {A : Type} (l : list A) i :
  List.length (enumerate i l) = List.length l.
Proof. revert i. induction l as [|x l IH]; intros i; cbn; [reflexivity|]. now rewrite IH. Qed.

Section ExactLoop.

Variable total_hours : Z.
Variable electricity_cost : Q.

Lemma motor_loop_exact (motors : list (Motor.t Q)) :
  forall i st, exists us vs,
    motor_loop total_hours electricity_cost i motors st =
      Ok {| motor_upgrades := motor_upgrades st ++ us;
            vfd_savings := vfd_savings st ++ vs;
            total_motor_upgrade_savings :=
              fold_left Qplus (map Upgrade.cost_savings us) (total_motor_upgrade_savings st);
            total_motor_upgrade_cost :=
              fold_left Qplus (map Upgrade.upgrade_cost us) (total_motor_upgrade_cost st);
            total_vfd_savings :=
              fold_left Qplus (map Vfd.cost_savings vs) (total_vfd_savings st);
            total_vfd_cost :=
              fold_left Qplus (map Vfd.vfd_cost vs) (total_vfd_cost st) |}
    /\ Forall2 (upgrade_of total_hours electricity_cost) (enumerate i motors) us
    /\ Forall2 (vfd_of total_hours electricity_cost) (filter ticked (enumerate i motors)) vs.
Proof.
  induction motors as [|m ms IH]; intros i st.
  - exists [], []. cbn. rewrite !app_nil_r. destruct st. repeat split; constructor.
  - destruct (motor_upgrade_exact total_hours electricity_cost i m) as (l & _ & Hu).
    destruct (motor_vfd_exact total_hours electricity_cost i m) as (s & _ & _ & Hv).
    cbv zeta in Hv.
    cbn [motor_loop enumerate filter]. unfold motor_step, ticked at 1. cbn [snd].
    rewrite Hu. cbn [bind].
    destruct (Motor.vfd_applicable m).
    + rewrite Hv. cbn [bind].
      match goal with
      | |- context [motor_loop _ _ _ ms ?st'] =>
          destruct (IH (i + 1)%Z st') as (us & vs & Hloop & Hus & Hvs); rewrite Hloop
      end.
      cbn [motor_upgrades vfd_savings total_motor_upgrade_savings total_motor_upgrade_cost
           total_vfd_savings total_vfd_cost].
      eexists (_ :: us), (_ :: vs). rewrite <- !app_assoc. cbn [app map fold_left].
      split; [reflexivity|]. split; constructor; assumption.
    + cbn [bind].
      match goal with
      | |- context [motor_loop _ _ _ ms ?st'] =>
          destruct (IH (i + 1)%Z st') as (us & vs & Hloop & Hus & Hvs); rewrite Hloop
      end.
      cbn [motor_upgrades vfd_savings total_motor_upgrade_savings total_motor_upgrade_cost
           total_vfd_savings total_vfd_cost].
      eexists (_ :: us), vs. rewrite <- !app_assoc. cbn [app map fold_left].
      split; [reflexivity|]. split; [constructor|]; assumption.
Qed.

End ExactLoop.

(** ** The lighting retrofit and the whole run *)

Section ExactRun.

Variable total_hours : Z.
Variable electricity_cost : Q.
Variable carbon_factor : Q.
Variable num_fixtures wattage_per daily_hours operating_days led_wattage : Z.

Lemma lighting_retrofit_exact :
  lighting_retrofit electricity_cost num_fixtures wattage_per daily_hours operating_days
    led_wattage =
  let current :=
    inject_Z (num_fixtures * wattage_per * (daily_hours * operating_days)) / 1000 in
  let led := inject_Z (num_fixtures * led_wattage * (daily_hours * operating_days)) / 1000 in
  let saved := (current - led) * electricity_cost in
  let cost := (num_fixtures * 15 * 10)%Z in
  Ok (Lighting.mk current led (current - led) saved cost
        (if Qle_bool saved 0 then 999 else inject_Z cost / saved)).
Proof.
  unfold lighting_retrofit, calculate_lighting_energy. cbn [of_int Number_Q].
  rewrite !truediv_defined by (unfold Qeq; simpl; lia).
  cbn [bind getitem dict_get LIGHTING_TYPES String.eqb Ascii.eqb Bool.eqb cost_per_unit].
  rewrite payback_of_exact. reflexivity.
Qed.


Hypothesis tariff_not_zero : ~ electricity_cost == 0.

Lemma run_simulation_exact (motors : list (Motor.t Q)) :
  exists out,
    run_simulation total_hours electricity_cost carbon_factor num_fixtures wattage_per
      daily_hours operating_days led_wattage motors = Ok out
    /\ Forall2 (upgrade_of total_hours electricity_cost) (enumerate 0 motors)
         (motor_upgrades (results out))
    /\ Forall2 (vfd_of total_hours electricity_cost) (filter ticked (enumerate 0 motors))
         (vfd_savings (results out))
    /\ lighting_retrofit electricity_cost num_fixtures wattage_per daily_hours operating_days
         led_wattage = Ok (results_lighting_retrofit out)
    /\ total_energy_savings out =
         py_sum (map Upgrade.energy_savings (motor_upgrades (results out)))
         + py_sum (map Vfd.energy_savings (vfd_savings (results out)))
         + Lighting.energy_savings (results_lighting_retrofit out)
    /\ total_cost_savings out =
         py_sum (map Upgrade.cost_savings (motor_upgrades (results out)))
         + py_sum (map Vfd.cost_savings (vfd_savings (results out)))
         + Lighting.cost_savings (results_lighting_retrofit out)
    /\ co2_reduction out = total_energy_savings out * carbon_factor / 1000
    /\ total_motor_upgrade_savings (results out) =
         py_sum (map Upgrade.cost_savings (motor_upgrades (results out)))
    /\ total_vfd_savings (results out) =
         py_sum (map Vfd.cost_savings (vfd_savings (results out))).
Proof.
  destruct (motor_loop_exact total_hours electricity_cost motors 0 loop_init)
    as (us & vs & Hloop & Hus & Hvs).
  unfold run_simulation. rewrite Hloop. cbn [bind].
  rewrite lighting_retrofit_exact. cbv zeta. cbn [bind].
  rewrite (truediv_defined _ tariff_not_zero). cbn [bind].
  cbn [of_int Number_Q]. rewrite truediv_defined by (unfold Qeq; simpl; lia).
  cbn [bind]. eexists. split; [reflexivity|].
  cbn [results motor_upgrades vfd_savings results_lighting_retrofit total_energy_savings
       total_cost_savings co2_reduction total_motor_upgrade_savings total_vfd_savings
       loop_init app].
  repeat split; assumption || reflexivity.
Qed.

End ExactRun.

(** ** No validation of motor groups *)



(** ** Aggregate totals *)

(** In any arithmetic, a run that returns has these totals: the sums are
    taken over the very records of the lists. *)
Lemma run_simulation_totals {F : Type} `{Number F}
    (total_hours : Z) (electricity_cost carbon_factor : F)
    (num_fixtures wattage_per daily_hours operating_days led_wattage : Z)
    (motors : list (Motor.t F)) (out : simulation) :
  run_simulation total_hours electricity_cost carbon_factor num_fixtures wattage_per
    daily_hours operating_days led_wattage motors = Ok out ->
  total_energy_savings out =
    add (add (py_sum (map Upgrade.energy_savings (motor_upgrades (results out))))
             (py_sum (map Vfd.energy_savings (vfd_savings (results out)))))
        (Lighting.energy_savings (results_lighting_retrofit out))
  /\ total_cost_savings out =
    add (add (py_sum (map Upgrade.cost_savings (motor_upgrades (results out))))
             (py_sum (map Vfd.cost_savings (vfd_savings (results out)))))
        (Lighting.cost_savings (results_lighting_retrofit out))
  /\ truediv (mul (total_energy_savings out) carbon_factor) (of_int 1000) =
       Ok (co2_reduction out).
Proof.
  unfold run_simulation.
  destruct (motor_loop total_hours electricity_cost 0 motors loop_init) as [st|e];
    cbn [bind]; [|discriminate].
  destruct (lighting_retrofit electricity_cost num_fixtures wattage_per daily_hours
              operating_days led_wattage) as [lighting|e]; cbn [bind]; [|discriminate].
  match goal with
  | |- bind ?d _ = _ -> _ => destruct d as [delta|e]; cbn [bind]; [|discriminate]
  end.
  match goal with
  | |- bind ?d _ = _ -> _ => destruct d as [co2|e] eqn:D; cbn [bind]; [|discriminate]
  end.
  intros E. injection E as <-.
  cbn [total_energy_savings total_cost_savings co2_reduction results
       results_lighting_retrofit].
  repeat split; [exact D].
Qed.

(** C7. In the rationals and in binary64 alike, the headline figures of a
    run that returns are the sums of the energy savings and of the cost
    savings over the upgrade records, the VFD records and the lighting
    record, and the CO2 reduction is the energy total times the emission
    factor over 1000.  In exact arithmetic a run over any inventory at a
    tariff that is not zero returns; its upgrade list holds the evaluation
    of every motor in order and its VFD list that of every motor whose box
    is ticked; and the totals the loop accumulates agree with the sums over
    the lists. *)
Theorem aggregate_totals :
  (forall (F : Type) (N : Number F)
          (total_hours : Z) (electricity_cost carbon_factor : F)
          (num_fixtures wattage_per daily_hours operating_days led_wattage : Z)
          (motors : list (Motor.t F)) (out : simulation),
      run_simulation total_hours electricity_cost carbon_factor num_fixtures wattage_per
        daily_hours operating_days led_wattage motors = Ok out ->
      total_energy_savings out =
        add (add (py_sum (map Upgrade.energy_savings (motor_upgrades (results out))))
                 (py_sum (map Vfd.energy_savings (vfd_savings (results out)))))
            (Lighting.energy_savings (results_lighting_retrofit out))
      /\ total_cost_savings out =
        add (add (py_sum (map Upgrade.cost_savings (motor_upgrades (results out))))
                 (py_sum (map Vfd.cost_savings (vfd_savings (results out)))))
            (Lighting.cost_savings (results_lighting_retrofit out))
      /\ truediv (mul (total_energy_savings out) carbon_factor) (of_int 1000) =
           Ok (co2_reduction out))
  /\ (forall (total_hours : Z) (electricity_cost carbon_factor : Q)
             (num_fixtures wattage_per daily_hours operating_days led_wattage : Z)
             (motors : list (Motor.t Q)),
      ~ electricity_cost == 0 ->
      exists out,
        run_simulation total_hours electricity_cost carbon_factor num_fixtures wattage_per
          daily_hours operating_days led_wattage motors = Ok out
        /\ Forall2 (upgrade_of total_hours electricity_cost) (enumerate 0 motors)
             (motor_upgrades (results out))
        /\ Forall2 (vfd_of total_hours electricity_cost) (filter ticked (enumerate 0 motors))
             (vfd_savings (results out))
        /\ lighting_retrofit electricity_cost num_fixtures wattage_per daily_hours
             operating_days led_wattage = Ok (results_lighting_retrofit out)
        /\ total_energy_savings out =
             py_sum (map Upgrade.energy_savings (motor_upgrades (results out)))
             + py_sum (map Vfd.energy_savings (vfd_savings (results out)))
             + Lighting.energy_savings (results_lighting_retrofit out)
        /\ total_cost_savings out =
             py_sum (map Upgrade.cost_savings (motor_upgrades (results out)))
             + py_sum (map Vfd.cost_savings (vfd_savings (results out)))
             + Lighting.cost_savings (results_lighting_retrofit out)
        /\ co2_reduction out = total_energy_savings out * carbon_factor / 1000
        /\ total_motor_upgrade_savings (results out) =
             py_sum (map Upgrade.cost_savings (motor_upgrades (results out)))
        /\ total_vfd_savings (results out) =
             py_sum (map Vfd.cost_savings (vfd_savings (results out)))).
Proof.
  split.
  - intros F N. apply run_simulation_totals.
  - intros total_hours electricity_cost carbon_factor num_fixtures wattage_per daily_hours
      operating_days led_wattage motors Hc.
    apply run_simulation_exact. exact Hc.
Qed.

Lemma aggregate_totals_witness :
  exists out,
    run_simulation (F:=Q) 4800 0.12 0.5 200 40 16 300 16 [example_motor] = Ok out
    /\ total_cost_savings out =
         py_sum (map Upgrade.cost_savings (motor_upgrades (results out)))
         + py_sum (map Vfd.cost_savings (vfd_savings (results out)))
         + Lighting.cost_savings (results_lighting_retrofit out)
    /\ co2_reduction out = total_energy_savings out * 0.5 / 1000.
Proof.
  destruct (proj2 aggregate_totals 4800%Z 0.12 0.5 200%Z 40%Z 16%Z 300%Z 16%Z
              [example_motor] ltac:(intros E; discriminate E))
    as (out & Hrun & _ & _ & _ & _ & Hcost & Hco2 & _).
  exists out. split; [exact Hrun|]. split; [exact Hcost|exact Hco2].
Defined.

(** ** The payback guard *)

Lemma py_max_Qmax (a b : Q) : py_max a b == Qmax a b.
Proof.
  unfold py_max. cbn [ltb Number_Q].
  destruct (Qle_bool b a) eqn:E; cbn [negb].
  - apply Qle_bool_iff in E. symmetry. apply Q.max_l. exact E.
  - apply not_true_iff_false in E. rewrite Qle_bool_iff in E. apply Qnot_le_lt in E.
    symmetry. apply Q.max_r. apply Qlt_le_weak. exact E.
Qed.

Lemma py_max_floor (a : Q) : 100 <= py_max a 100.
Proof. rewrite py_max_Qmax. apply Q.le_max_r. Qed.

Lemma payback_of_positive (cost savings p : Q) :
  0 < cost -> payback_of cost savings = Ok p -> 0 < p.
Proof.
  intros Hc. rewrite payback_of_exact. intros E. injection E as <-.
  destruct (Qle_bool savings 0) eqn:T; [reflexivity|].
  apply not_true_iff_false in T. rewrite Qle_bool_iff in T. apply Qnot_le_lt in T.
  apply Qlt_shift_div_l; [exact T|]. lra.
Qed.

(** C5, as the program behaves. In exact arithmetic, for the motor
    upgrade, the VFD and the lighting retrofit alike, the payback is the
    investment divided by the
    cost savings when the cost savings are positive and 999 otherwise; the
    computation never divides by zero; the payback of a motor upgrade is
    always positive, and so are the payback of a VFD for a positive rating
    and a quantity of at least one and the payback of a lighting retrofit
    of at least one fixture. *)
Theorem payback_guard
    (total_hours : Z) (electricity_cost : Q)
    (num_fixtures wattage_per daily_hours operating_days led_wattage : Z) :
  (forall cost savings, 0 < savings -> payback_of cost savings = Ok (cost / savings))
  /\ (forall cost savings, savings <= 0 -> payback_of cost savings = Ok 999)
  /\ (forall i motor, exists u,
        motor_upgrade total_hours electricity_cost i motor = Ok u
        /\ payback_of (Upgrade.upgrade_cost u) (Upgrade.cost_savings u) =
             Ok (Upgrade.payback_years u)
        /\ 0 < Upgrade.payback_years u)
  /\ (forall i motor, exists v,
        motor_vfd total_hours electricity_cost i motor = Ok v
        /\ payback_of (Vfd.vfd_cost v) (Vfd.cost_savings v) = Ok (Vfd.payback_years v)
        /\ (0 < Motor.rating motor -> (1 <= Motor.quantity motor)%Z ->
            0 < Vfd.payback_years v))
  /\ (exists l,
        lighting_retrofit electricity_cost num_fixtures wattage_per daily_hours
          operating_days led_wattage = Ok l
        /\ payback_of (inject_Z (Lighting.retrofit_cost l)) (Lighting.cost_savings l) =
             Ok (Lighting.payback_years l)
        /\ ((1 <= num_fixtures)%Z -> 0 < Lighting.payback_years l)).
Proof.
  split; [|split; [|split; [|split]]].
  - intros cost savings Hs. rewrite payback_of_exact.
    destruct (Qle_bool savings 0) eqn:T; [|reflexivity].
    apply Qle_bool_iff in T. lra.
  - intros cost savings Hs. rewrite payback_of_exact.
    apply Qle_bool_iff in Hs. rewrite Hs. reflexivity.
  - intros i motor.
    destruct (motor_upgrade_exact total_hours electricity_cost i motor) as (v & _ & Hu).
    eexists. split; [exact Hu|].
    cbn [Upgrade.upgrade_cost Upgrade.cost_savings Upgrade.payback_years].
    assert (P : payback_of (py_max (Locals.upgrade_cost v) 100) (Locals.cost_savings_motor v)
                = Ok (if Qle_bool (Locals.cost_savings_motor v) 0 then 999
                      else py_max (Locals.upgrade_cost v) 100 / Locals.cost_savings_motor v))
      by apply payback_of_exact.
    split; [exact P|].
    eapply payback_of_positive; [|exact P].
    pose proof (py_max_floor (Locals.upgrade_cost v)). lra.
  - intros i motor.
    destruct (motor_vfd_exact total_hours electricity_cost i motor) as (s & _ & _ & Hv).
    cbv zeta in Hv. eexists. split; [exact Hv|].
    cbn [Vfd.vfd_cost Vfd.cost_savings Vfd.payback_years].
    match goal with
    | |- payback_of ?c ?s = _ /\ _ => pose proof (payback_of_exact c s) as P
    end.
    split; [exact P|].
    intros Hr Hq. eapply payback_of_positive; [|exact P].
    assert (Hq' : 1 <= inject_Z (Motor.quantity motor))
      by (change 1 with (inject_Z 1); rewrite <- Zle_Qle; exact Hq).
    assert (0 < Motor.rating motor * inject_Z (Motor.quantity motor))
      by (apply Qmult_lt_0_compat; lra).
    lra.
  - rewrite lighting_retrofit_exact. cbv zeta. eexists. split; [reflexivity|].
    cbn [Lighting.retrofit_cost Lighting.cost_savings Lighting.payback_years].
    match goal with
    | |- payback_of ?c ?s = _ /\ _ => pose proof (payback_of_exact c s) as P
    end.
    split; [exact P|].
    intros Hn. eapply payback_of_positive; [|exact P].
    change 0 with (inject_Z 0). rewrite <- Zlt_Qlt. lia.
Qed.

Lemma payback_guard_witness :
  exists v,
    motor_vfd (F:=Q) 4800 0.12 0 example_motor = Ok v
    /\ payback_of (Vfd.vfd_cost v) (Vfd.cost_savings v) = Ok (Vfd.payback_years v)
    /\ 0 < Vfd.payback_years v.
Proof.
  destruct (proj1 (proj2 (proj2 (proj2 (@payback_guard 4800 0.12 200 40 16 300 16))))
              0%Z example_motor) as (v & Hv & Hp & Hpos).
  exists v. split; [exact Hv|]. split; [exact Hp|].
  apply Hpos; [reflexivity | cbn; lia].
Defined.

(** C5, refuted as stated. Nothing in the engine checks the ranges of its
    inputs, and outside them a payback can be negative: a rating and a load
    factor that are both negative give a VFD positive savings for a
    negative cost, in exact arithmetic and in binary64, and so does a
    negative number of fixtures with a LED wattage above the current one
    for the lighting retrofit. *)
Example vfd_payback_outside_ranges :
  (exists v,
      motor_vfd (F:=Q) 4800 0.12 0 (Motor.mk (-15) 8 (-0.5) "IE2" true) = Ok v
      /\ Vfd.cost_savings v == 13824
      /\ Vfd.vfd_cost v == -12000
      /\ Vfd.payback_years v == Vfd.vfd_cost v / Vfd.cost_savings v
      /\ Vfd.payback_years v < 0)
  /\ (exists v,
      motor_vfd (F:=float) 4800 (lit 0.12) 0
        (Motor.mk (of_int (-15)) 8 (lit (-0.5)) "IE2" true) = Ok v
      /\ PrimFloat.ltb (Vfd.payback_years v) 0 = true)
  /\ (exists l,
      lighting_retrofit (F:=Q) 0.12 (-200) 16 16 300 40 = Ok l
      /\ 0 < Lighting.cost_savings l
      /\ Lighting.retrofit_cost l = (-30000)%Z
      /\ Lighting.payback_years l < 0).
Proof.
  split; [|split].
  - eexists. split; [vm_compute; reflexivity|].
    cbn [Vfd.cost_savings Vfd.vfd_cost Vfd.payback_years]. repeat split; qdecide.
  - eexists. split; [vm_compute; reflexivity|].
    cbn [Vfd.payback_years]. vm_compute. reflexivity.
  - eexists. split; [vm_compute; reflexivity|].
    cbn [Lighting.cost_savings Lighting.retrofit_cost Lighting.payback_years].
    repeat split; qdecide.
Qed.

(** ** The upgrade cost of an IE1 motor *)

Lemma segment_lt x1 y1 x2 y2 z1 z2 x :
  x1 < x2 -> y1 < z1 -> y2 < z2 -> x1 <= x <= x2 ->
  segment x1 y1 x2 y2 x < segment x1 z1 x2 z2 x.
Proof.
  intros Hx H1 H2 [Hl Hr].
  assert (T0 : 0 <= (x - x1) / (x2 - x1)) by (apply ratio_nonneg; assumption).
  assert (T1 : 0 <= (x2 - x) / (x2 - x1)) by (apply ratio_nonneg; assumption).
  assert (S1 : (x2 - x) / (x2 - x1) == 1 - (x - x1) / (x2 - x1)) by (field; lra).
  assert (Ey : segment x1 y1 x2 y2 x ==
               y1 * (1 - (x - x1) / (x2 - x1)) + y2 * ((x - x1) / (x2 - x1)))
    by (unfold segment; field; lra).
  assert (Ez : segment x1 z1 x2 z2 x ==
               z1 * (1 - (x - x1) / (x2 - x1)) + z2 * ((x - x1) / (x2 - x1)))
    by (unfold segment; field; lra).
  rewrite Ey, Ez. rewrite S1 in T1. clear Ey Ez S1.
  generalize dependent ((x - x1) / (x2 - x1)). intros t T0 T1.
  assert (0 <= (z1 - y1) * (1 - t)) by (apply Qmult_le_0_compat; lra).
  assert (0 <= (z2 - y2) * t) by (apply Qmult_le_0_compat; lra).
  destruct (Qlt_le_dec t (1 # 2)) as [A|A].
  - assert (0 <= (z1 - y1) * ((1 # 2) - t)) by (apply Qmult_le_0_compat; lra). lra.
  - assert (0 <= (z2 - y2) * (t - (1 # 2))) by (apply Qmult_le_0_compat; lra). lra.
Qed.

Lemma piecewise4_lt y0 y1 y2 y3 z0 z1 z2 z3 x :
  y0 < z0 -> y1 < z1 -> y2 < z2 -> y3 < z3 ->
  piecewise4 y0 y1 y2 y3 x < piecewise4 z0 z1 z2 z3 x.
Proof.
  intros H0 H1 H2 H3. unfold piecewise4.
  split_tests; try assumption; apply segment_lt; try assumption; lra.
Qed.

(** C10. The cost table has no entry for IE1.  In exact arithmetic the
    upgrade cost of an IE1 motor group is the larger of
    rating * quantity * (85 - 50) and 100, the same as that of the same
    group declared IE2, while at every load factor the efficiency of IE1 is
    strictly below that of IE2. *)
Theorem ie1_upgrade_cost_as_ie2
    (total_hours : Z) (electricity_cost : Q) (i : Z) (motor : Motor.t Q) :
  Motor.current_class motor = "IE1"%string ->
  dict_get "IE1" MOTOR_COSTS = None
  /\ (exists u u2,
        motor_upgrade total_hours electricity_cost i motor = Ok u
        /\ motor_upgrade total_hours electricity_cost i (with_class motor "IE2") = Ok u2
        /\ Upgrade.upgrade_cost u ==
             Qmax (Motor.rating motor * inject_Z (Motor.quantity motor) * (85 - 50)) 100
        /\ Upgrade.upgrade_cost u = Upgrade.upgrade_cost u2)
  /\ (forall x, exists e1 e2,
        get_efficiency "IE1" x = Ok e1 /\ get_efficiency "IE2" x = Ok e2 /\ e1 < e2).
Proof.
  intros Hc. split; [reflexivity|]. split.
  - destruct (motor_locals_exact total_hours electricity_cost motor)
      as (e & e4 & _ & _ & _ & _ & Hl).
    destruct (motor_locals_exact total_hours electricity_cost (with_class motor "IE2"))
      as (e' & e4' & _ & _ & _ & _ & Hl').
    destruct (motor_upgrade_exact total_hours electricity_cost i motor) as (v & Hv & Hu).
    destruct (motor_upgrade_exact total_hours electricity_cost i (with_class motor "IE2"))
      as (v' & Hv' & Hu').
    cbv zeta in Hl, Hl'. rewrite Hl in Hv. rewrite Hl' in Hv'.
    injection Hv as <-. injection Hv' as <-.
    do 2 eexists. split; [exact Hu|]. split; [exact Hu'|].
    cbn [Upgrade.upgrade_cost Locals.upgrade_cost with_class Motor.current_class
         Motor.rating Motor.quantity].
    rewrite Hc. split; [|reflexivity].
    rewrite py_max_Qmax. reflexivity.
  - intros x. rewrite !get_efficiency_lookup.
    change (curve_of (F:=Q) "IE1") with (anchors4 0.78 0.85 0.88 0.89).
    change (curve_of (F:=Q) "IE2") with (anchors4 0.82 0.88 0.90 0.91).
    rewrite !lookup_anchors4. do 2 eexists. split; [reflexivity|]. split; [reflexivity|].
    apply piecewise4_lt; lra.
Qed.

Lemma ie1_upgrade_cost_witness :
  dict_get "IE1" MOTOR_COSTS = None
  /\ (exists u u2,
        motor_upgrade 4800 0.12 3 ie1_motor = Ok u
        /\ motor_upgrade 4800 0.12 3 (with_class ie1_motor "IE2") = Ok u2
        /\ Upgrade.upgrade_cost u ==
             Qmax (Motor.rating ie1_motor * inject_Z (Motor.quantity ie1_motor) * (85 - 50)) 100
        /\ Upgrade.upgrade_cost u = Upgrade.upgrade_cost u2)
  /\ (forall x, exists e1 e2,
        get_efficiency "IE1" x = Ok e1 /\ get_efficiency "IE2" x = Ok e2 /\ e1 < e2).
Proof.
  apply (@ie1_upgrade_cost_as_ie2 4800 0.12 3 ie1_motor). reflexivity.
Defined.

(** ** The stable descending sort *)

Section SortReverse.

Variable A : Type.
Variable key : A -> Q.

Lemma insert_desc_perm x l : Permutation (x :: l) (insert_desc key x l).
Proof.
  induction l as [|y l IH]; cbn [insert_desc]; [reflexivity|].
  destruct (ltb (key x) (key y)); [|reflexivity].
  rewrite perm_swap. apply perm_skip. exact IH.
Qed.

Lemma sort_reverse_perm l : Permutation l (sort_reverse key l).
Proof.
  induction l as [|x l IH]; cbn [sort_reverse]; [reflexivity|].
  rewrite <- insert_desc_perm. apply perm_skip. exact IH.
Qed.

Lemma insert_desc_descending x l : descending key l -> descending key (insert_desc key x l).
Proof.
  unfold descending. induction l as [|y l IH]; intros Hl; cbn [insert_desc].
  - constructor; constructor.
  - cbn [ltb Number_Q]. destruct (Qle_bool (key y) (key x)) eqn:T; cbn [negb].
    + apply Qle_bool_iff in T. constructor; [exact Hl|].
      constructor; [exact T|].
      apply StronglySorted_inv in Hl. destruct Hl as [_ Hy].
      eapply Forall_impl; [|exact Hy]. cbn. intros b Hb. lra.
    + apply not_true_iff_false in T. rewrite Qle_bool_iff in T. apply Qnot_le_lt in T.
      apply StronglySorted_inv in Hl. destruct Hl as [Hl Hy].
      constructor; [apply IH; exact Hl|].
      rewrite <- insert_desc_perm. constructor; [lra|exact Hy].
Qed.

Lemma sort_reverse_descending l : descending key (sort_reverse key l).
Proof.
  induction l as [|x l IH]; cbn [sort_reverse].
  - constructor.
  - apply insert_desc_descending. exact IH.
Qed.

Lemma insert_desc_with_key k x l :
  with_key key k (insert_desc key x l) = with_key key k (x :: l).
Proof.
  unfold with_key. induction l as [|y l IH]; cbn [insert_desc]; [reflexivity|].
  cbn [ltb Number_Q]. destruct (Qle_bool (key y) (key x)) eqn:T; cbn [negb]; [reflexivity|].
  apply not_true_iff_false in T. rewrite Qle_bool_iff in T. apply Qnot_le_lt in T.
  cbn [filter] in *. rewrite IH.
  destruct (Qeq_bool (key x) k) eqn:Ex; destruct (Qeq_bool (key y) k) eqn:Ey;
    try reflexivity.
  apply Qeq_bool_iff in Ex. apply Qeq_bool_iff in Ey. lra.
Qed.

Lemma sort_reverse_with_key k l :
  with_key key k (sort_reverse key l) = with_key key k l.
Proof.
  induction l as [|x l IH]; cbn [sort_reverse]; [reflexivity|].
  rewrite insert_desc_with_key. unfold with_key in *. cbn [filter]. rewrite IH. reflexivity.
Qed.

End SortReverse.

(** ** The recommendation list *)

Lemma str_last_cases (c : string) :
  (exists a, str_last c = Ok a /\ c <> ""%string)
  \/ (str_last c = Raise IndexError /\ c = ""%string).
Proof.
  induction c as [|a c IH]; [right; split; reflexivity|].
  left. destruct c as [|b c].
  - exists a. split; [reflexivity|discriminate].
  - destruct IH as [(x & Hx & _)|(_ & E)]; [|discriminate E].
    exists x. split; [exact Hx|discriminate].
Qed.

Lemma printable_iff (m : Upgrade.t Q) :
  printable m = true <-> Upgrade.current_class m <> ""%string.
Proof.
  unfold printable.
  destruct (str_last_cases (Upgrade.current_class m)) as [(a & Ha & Hn)|(Hr & He)].
  - rewrite Ha. cbn. split; [intros _; exact Hn|reflexivity].
  - rewrite Hr. cbn. split; [discriminate|]. intros Hn. contradiction.
Qed.

Lemma classes_printable_iff (motors : list (Upgrade.t Q)) :
  classes_printable motors <->
  forallb printable (filter (fun m => Qle_bool (Upgrade.payback_years m) 5) motors) = true.
Proof.
  unfold classes_printable. rewrite forallb_forall. split.
  - intros Hp m Hm. apply filter_In in Hm. destruct Hm as [Hin Hpass].
    apply printable_iff. apply Hp; [exact Hin|]. apply Qle_bool_iff. exact Hpass.
  - intros Hp m Hin Hpass. apply printable_iff. apply Hp. apply filter_In.
    split; [exact Hin|]. apply Qle_bool_iff. exact Hpass.
Qed.

(** The first loop of the list either prints every motor upgrade within
    the ceiling, or fails on a class name without a last character. *)
Lemma add_motor_upgrades_exact motors : forall acc,
  add_motor_upgrades acc motors =
  if forallb printable (filter (fun m => Qle_bool (Upgrade.payback_years m) 5) motors)
  then Ok (acc ++ map motor_entry
                    (filter (fun m => Qle_bool (Upgrade.payback_years m) 5) motors))
  else Raise IndexError.
Proof.
  induction motors as [|m ms IH]; intros acc; cbn [add_motor_upgrades filter map forallb].
  - rewrite app_nil_r. reflexivity.
  - cbn [leb of_int Number_Q]. change (inject_Z 5) with 5.
    destruct (Qle_bool (Upgrade.payback_years m) 5); [|apply IH].
    cbn [forallb map]. unfold printable at 1, motor_entry at 1, class_suffix.
    destruct (str_last_cases (Upgrade.current_class m)) as [(a & Ha & _)|(Hr & _)].
    + rewrite Ha. cbn [bind succeeds andb]. rewrite sort_key_of_exact. cbn [bind].
      rewrite IH.
      destruct (forallb printable
                  (filter (fun m0 => Qle_bool (Upgrade.payback_years m0) 5) ms));
        [|reflexivity].
      rewrite <- app_assoc. reflexivity.
    + rewrite Hr. reflexivity.
Qed.

Lemma add_vfd_installations_exact vfds : forall acc,
  add_vfd_installations acc vfds =
  Ok (acc ++ map vfd_entry (filter (fun v => Qle_bool (Vfd.payback_years v) 4) vfds)).
Proof.
  induction vfds as [|v vs IH]; intros acc; cbn [add_vfd_installations filter map].
  - rewrite app_nil_r. reflexivity.
  - cbn [leb of_int Number_Q]. change (inject_Z 4) with 4.
    destruct (Qle_bool (Vfd.payback_years v) 4).
    + rewrite sort_key_of_exact. cbn [bind]. rewrite IH. rewrite <- app_assoc. reflexivity.
    + apply IH.
Qed.

Lemma collect_exact num_fixtures led_wattage motors vfds lighting :
  collect num_fixtures led_wattage motors vfds lighting =
  if forallb printable (filter (fun m => Qle_bool (Upgrade.payback_years m) 5) motors)
  then Ok (candidates num_fixtures led_wattage motors vfds lighting)
  else Raise IndexError.
Proof.
  unfold collect, candidates. rewrite add_motor_upgrades_exact.
  destruct (forallb printable
              (filter (fun m => Qle_bool (Upgrade.payback_years m) 5) motors));
    [|reflexivity].
  cbn [bind app].
  rewrite add_vfd_installations_exact. cbn [bind].
  unfold add_lighting_retrofit. cbn [leb of_int Number_Q]. change (inject_Z 5) with 5.
  destruct (Qle_bool (Lighting.payback_years lighting) 5).
  - rewrite sort_key_of_exact. cbn [bind]. rewrite <- app_assoc. reflexivity.
  - rewrite app_nil_r. reflexivity.
Qed.

Lemma recommend_exact num_fixtures led_wattage motors vfds lighting :
  recommend num_fixtures led_wattage motors vfds lighting =
  if forallb printable (filter (fun m => Qle_bool (Upgrade.payback_years m) 5) motors)
  then Ok (sort_reverse Rec.sort_key
             (candidates num_fixtures led_wattage motors vfds lighting))
  else Raise IndexError.
Proof.
  unfold recommend. rewrite collect_exact.
  destruct (forallb printable
              (filter (fun m => Qle_bool (Upgrade.payback_years m) 5) motors));
    reflexivity.
Qed.

Lemma recommend_returns num_fixtures led_wattage motors vfds lighting :
  classes_printable motors ->
  recommend num_fixtures led_wattage motors vfds lighting =
  Ok (sort_reverse Rec.sort_key (candidates num_fixtures led_wattage motors vfds lighting)).
Proof.
  intros Hp. rewrite recommend_exact.
  rewrite (proj1 (classes_printable_iff motors) Hp). reflexivity.
Qed.

Lemma recommend_returned num_fixtures led_wattage motors vfds lighting out :
  recommend num_fixtures led_wattage motors vfds lighting = Ok out ->
  out = sort_reverse Rec.sort_key (candidates num_fixtures led_wattage motors vfds lighting).
Proof.
  rewrite recommend_exact.
  destruct (forallb printable
              (filter (fun m => Qle_bool (Upgrade.payback_years m) 5) motors));
    [|discriminate].
  intros E. injection E as <-. reflexivity.
Qed.

Lemma candidates_within_ceiling num_fixtures led_wattage motors vfds lighting r :
  In r (candidates num_fixtures led_wattage motors vfds lighting) ->
  within_ceiling r /\ Rec.sort_key r = rank_key (Rec.payback r).
Proof.
  unfold candidates, within_ceiling. rewrite !in_app_iff, !in_map_iff.
  intros [(m & <- & Hm)|[(v & <- & Hv)|Hl]].
  - apply filter_In in Hm. destruct Hm as [_ Hm]. apply Qle_bool_iff in Hm.
    split; [left; split; [reflexivity|exact Hm]|reflexivity].
  - apply filter_In in Hv. destruct Hv as [_ Hv]. apply Qle_bool_iff in Hv.
    split; [right; left; split; [reflexivity|exact Hv]|reflexivity].
  - destruct (Qle_bool (Lighting.payback_years lighting) 5) eqn:T; [|destruct Hl].
    destruct Hl as [<-|[]]. apply Qle_bool_iff in T.
    split; [right; right; split; [reflexivity|exact T]|reflexivity].
Qed.

Lemma candidates_none num_fixtures led_wattage motors vfds lighting :
  (forall m, In m motors -> 5 < Upgrade.payback_years m) ->
  (forall v, In v vfds -> 4 < Vfd.payback_years v) ->
  5 < Lighting.payback_years lighting ->
  candidates num_fixtures led_wattage motors vfds lighting = [].
Proof.
  intros Hm Hv Hl. unfold candidates.
  assert (Em : filter (fun m => Qle_bool (Upgrade.payback_years m) 5) motors = []).
  { induction motors as [|m ms IH]; [reflexivity|]. cbn [filter].
    destruct (Qle_bool (Upgrade.payback_years m) 5) eqn:T.
    - apply Qle_bool_iff in T. specialize (Hm m (or_introl eq_refl)). lra.
    - apply IH. intros m' Hin. apply Hm. right. exact Hin. }
  assert (Ev : filter (fun v => Qle_bool (Vfd.payback_years v) 4) vfds = []).
  { induction vfds as [|v vs IH]; [reflexivity|]. cbn [filter].
    destruct (Qle_bool (Vfd.payback_years v) 4) eqn:T.
    - apply Qle_bool_iff in T. specialize (Hv v (or_introl eq_refl)). lra.
    - apply IH. intros v' Hin. apply Hv. right. exact Hin. }
  rewrite Em, Ev. cbn [map app].
  destruct (Qle_bool (Lighting.payback_years lighting) 5) eqn:T; [|reflexivity].
  apply Qle_bool_iff in T. lra.
Qed.

(** C6. In exact arithmetic, a list the ranker returns is a rearrangement
    of the entries that pass their ceiling; every entry has a payback of at
    most 5 (motor upgrade), 4 (VFD) or 5 (lighting); its rank key is
    1/payback for a positive payback and 0 otherwise; rank keys never
    increase along the list; entries with equal rank keys stand in input
    order (motor upgrades, then VFDs, then lighting, each in index order).
    The ranker returns whenever every motor upgrade within the ceiling has
    a class name that is not empty; when no payback is within its ceiling
    it returns the empty list; its only failure is the missing last
    character of an empty class name of a motor upgrade within the
    ceiling. *)
Theorem recommendations_ranked (num_fixtures led_wattage : Z)
    (motors : list (Upgrade.t Q)) (vfds : list (Vfd.t Q)) (lighting : Lighting.t Q) :
  (forall out,
      recommend num_fixtures led_wattage motors vfds lighting = Ok out ->
      Permutation (candidates num_fixtures led_wattage motors vfds lighting) out
      /\ (forall r, In r out -> within_ceiling r)
      /\ (forall r, In r out -> Rec.sort_key r = rank_key (Rec.payback r))
      /\ descending Rec.sort_key out
      /\ (forall k, with_key Rec.sort_key k out =
                    with_key Rec.sort_key k
                      (candidates num_fixtures led_wattage motors vfds lighting)))
  /\ (classes_printable motors ->
      exists out, recommend num_fixtures led_wattage motors vfds lighting = Ok out)
  /\ ((forall m, In m motors -> 5 < Upgrade.payback_years m) ->
      (forall v, In v vfds -> 4 < Vfd.payback_years v) ->
      5 < Lighting.payback_years lighting ->
      recommend num_fixtures led_wattage motors vfds lighting = Ok [])
  /\ (~ classes_printable motors ->
      recommend num_fixtures led_wattage motors vfds lighting = Raise IndexError).
Proof.
  split; [|split; [|split]].
  - intros out Hout. apply recommend_returned in Hout. subst out.
    pose proof (sort_reverse_perm Rec.sort_key
                  (candidates num_fixtures led_wattage motors vfds lighting)) as P.
    split; [exact P|].
    split; [|split; [|split]].
    + intros r Hr. apply (Permutation_in _ (Permutation_sym P)) in Hr.
      apply candidates_within_ceiling in Hr. apply Hr.
    + intros r Hr. apply (Permutation_in _ (Permutation_sym P)) in Hr.
      apply candidates_within_ceiling in Hr. apply Hr.
    + apply sort_reverse_descending.
    + intros k. apply sort_reverse_with_key.
  - intros Hp. eexists. apply recommend_returns. exact Hp.
  - intros Hm Hv Hl. rewrite recommend_returns.
    + rewrite candidates_none by assumption. reflexivity.
    + intros m Hin Hpass. specialize (Hm m Hin). lra.
  - intros Hn. rewrite recommend_exact.
    destruct (forallb printable
                (filter (fun m => Qle_bool (Upgrade.payback_years m) 5) motors)) eqn:E;
      [|reflexivity].
    apply classes_printable_iff in E. contradiction.
Qed.

Lemma recommendations_ranked_witness :
  exists out, recommend 200 16 [quick_upgrade] [slow_vfd] slow_lighting = Ok out.
Proof.
  apply (proj1 (proj2 (@recommendations_ranked 200 16 [quick_upgrade] [slow_vfd]
                         slow_lighting))).
  intros m [<-|[]] _. discriminate.
Defined.

(** ** Runs in binary64 *)

(** The whole run and the ranking for the example group with the default
    textile lighting (200 fixtures of 40 W, 16 hours a day, 300 days, 16 W
    LED): the run returns, and the motor upgrade ranks before the VFD. *)
Example float_run_example :
  exists out recs,
    run_simulation (F:=float) 4800 (lit 0.12) (lit 0.5) 200 40 16 300 16 [example_motor]
      = Ok out
    /\ total_energy_savings out = 91503.157894736796%float
    /\ total_cost_savings out = 10980.378947368416%float
    /\ co2_reduction out = 45.751578947368401%float
    /\ Lighting.payback_years (results_lighting_retrofit out) = 10.850694444444445%float
    /\ recommend 200 16 (motor_upgrades (results out)) (vfd_savings (results out))
         (results_lighting_retrofit out) = Ok recs
    /\ map Rec.type recs = ["Motor Upgrade"; "VFD Installation"]%string
    /\ map Rec.priority recs = ["High"; "Medium"]%string.
Proof.
  do 2 eexists. split; [vm_compute; reflexivity|].
  cbn [total_energy_savings total_cost_savings co2_reduction results_lighting_retrofit
       Lighting.payback_years results motor_upgrades vfd_savings].
  repeat split; vm_compute; reflexivity.
Qed.

(** Entries with equal keys keep their order, larger keys come first. *)
Example sort_reverse_example :
  sort_reverse (F:=Q) snd [("a", 1); ("b", 2); ("c", 1); ("d", 2); ("e", 3)]%string
  = [("e", 3); ("b", 2); ("d", 2); ("a", 1); ("c", 1)]%string.
Proof. reflexivity. Qed.

(** * Further properties of the engine *)

(** ** Efficiencies *)

Lemma piecewise4_le y0 y1 y2 y3 z0 z1 z2 z3 x :
  y0 <= z0 -> y1 <= z1 -> y2 <= z2 -> y3 <= z3 ->
  piecewise4 y0 y1 y2 y3 x <= piecewise4 z0 z1 z2 z3 x.
Proof.
  intros H0 H1 H2 H3. unfold piecewise4.
  split_tests; try assumption.
  all: match goal with
       | |- segment ?x1 ?a ?x2 ?b ?t <= segment ?x1 ?c ?x2 ?d ?t =>
           assert (x1 < x2) by lra;
           assert (0 <= (t - x1) / (x2 - x1)) by (apply ratio_nonneg; lra);
           assert (0 <= (x2 - t) / (x2 - x1)) by (apply ratio_nonneg; lra);
           assert (segment x1 c x2 d t - segment x1 a x2 b t ==
                       (c - a) * ((x2 - t) / (x2 - x1)) + (d - b) * ((t - x1) / (x2 - x1)))
             by (unfold segment; field; lra);
           assert (0 <= (c - a) * ((x2 - t) / (x2 - x1))) by (apply Qmult_le_0_compat; lra);
           assert (0 <= (d - b) * ((t - x1) / (x2 - x1))) by (apply Qmult_le_0_compat; lra);
           lra
       end.
Qed.

Lemma efficiency_le_ie4 cls x :
  exists e e4,
    get_efficiency (F:=Q) cls x = Ok e /\ get_efficiency "IE4" x = Ok e4
    /\ 0.78 <= e /\ e <= e4 /\ e4 <= 0.96.
Proof.
  destruct (curve_of_cases cls) as [E|[E|[E|E]]];
    do 2 eexists; rewrite !get_efficiency_lookup;
    change (curve_of (F:=Q) "IE4") with (anchors4 0.88 0.93 0.95 0.96);
    rewrite E, !lookup_anchors4;
    (split; [reflexivity|]); (split; [reflexivity|]);
    (split; [|split; [apply piecewise4_le; lra|]]);
    match goal with
    | |- context [piecewise4 ?a ?b ?c ?d ?t] =>
        pose proof (@piecewise4_range a b c d t ltac:(lra) ltac:(lra) ltac:(lra))
    end; lra.
Qed.

(** X1. The efficiency of every class name at every load factor lies
    between the first and the last anchor value of the curve it reads, and
    these lie strictly between 0 and 1. *)
Theorem efficiency_between_end_anchors (cls : string) (x : Q) :
  exists e lo hi,
    get_efficiency cls x = Ok e
    /\ first_item (map snd (curve_of (F:=Q) cls)) = Ok lo
    /\ last_item (map snd (curve_of (F:=Q) cls)) = Ok hi
    /\ lo <= e <= hi /\ 0 < lo /\ hi < 1.
Proof.
  rewrite get_efficiency_lookup.
  destruct (curve_of_cases cls) as [E|[E|[E|E]]]; rewrite E, lookup_anchors4;
    do 3 eexists; (split; [reflexivity|]); cbn [anchors4 map snd first_item last_item];
    (split; [reflexivity|]); (split; [reflexivity|]);
    (split; [apply piecewise4_range; lra|split; lra]).
Qed.

(** X2. At every load factor the efficiencies of the four classes are
    strictly ordered, IE1 below IE2 below IE3 below IE4, and no class name
    has an efficiency above IE4's. *)
Theorem efficiency_classes_ordered (x : Q) :
  (exists e1 e2 e3 e4,
      get_efficiency "IE1" x = Ok e1 /\ get_efficiency "IE2" x = Ok e2
      /\ get_efficiency "IE3" x = Ok e3 /\ get_efficiency "IE4" x = Ok e4
      /\ e1 < e2 /\ e2 < e3 /\ e3 < e4)
  /\ (forall cls, exists e e4,
        get_efficiency cls x = Ok e /\ get_efficiency "IE4" x = Ok e4 /\ e <= e4).
Proof.
  split.
  - rewrite !get_efficiency_lookup.
    change (curve_of (F:=Q) "IE1") with (anchors4 0.78 0.85 0.88 0.89).
    change (curve_of (F:=Q) "IE2") with (anchors4 0.82 0.88 0.90 0.91).
    change (curve_of (F:=Q) "IE3") with (anchors4 0.85 0.90 0.92 0.93).
    change (curve_of (F:=Q) "IE4") with (anchors4 0.88 0.93 0.95 0.96).
    rewrite !lookup_anchors4. do 4 eexists.
    repeat (split; [reflexivity|]).
    repeat split; apply piecewise4_lt; lra.
  - intros cls. destruct (efficiency_le_ie4 cls x) as (e & e4 & He & He4 & _ & Hle & _).
    exists e, e4. repeat split; assumption.
Qed.

Lemma quotient_gap (s e e4 : Q) :
  0 <= s -> 0 < e -> e <= e4 -> 0 <= s / e - s / e4.
Proof.
  intros Hs He Hle.
  assert (E : s / e - s / e4 == (s * (e4 - e)) * / (e * e4)) by (field; split; lra).
  rewrite E. apply Qmult_le_0_compat.
  - apply Qmult_le_0_compat; lra.
  - apply Qlt_le_weak, Qinv_lt_0_compat. apply Qmult_lt_0_compat; lra.
Qed.

(** X3. For a motor group whose rating, load factor and quantity are not
    negative, with hours and a tariff that are not negative, the upgrade to
    IE4 never has negative energy savings or negative cost savings. *)
Theorem upgrade_savings_nonnegative
    (total_hours : Z) (electricity_cost : Q) (i : Z) (motor : Motor.t Q) :
  0 <= Motor.rating motor -> 0 <= Motor.load_factor motor ->
  (0 <= Motor.quantity motor)%Z -> (0 <= total_hours)%Z -> 0 <= electricity_cost ->
  exists u,
    motor_upgrade total_hours electricity_cost i motor = Ok u
    /\ 0 <= Upgrade.energy_savings u /\ 0 <= Upgrade.cost_savings u.
Proof.
  intros Hr Hl Hq Hh Hc.
  destruct (efficiency_le_ie4 (Motor.current_class motor) (Motor.load_factor motor))
    as (e & e4 & He & He4 & Hlo & Hle & _).
  destruct (motor_locals_exact total_hours electricity_cost motor)
    as (e' & e4' & He' & He4' & _ & _ & Hv).
  rewrite He in He'. injection He' as <-. rewrite He4 in He4'. injection He4' as <-.
  destruct (motor_upgrade_exact total_hours electricity_cost i motor) as (v & Hv' & Hu).
  cbv zeta in Hv. rewrite Hv in Hv'. injection Hv' as <-.
  eexists. split; [exact Hu|].
  cbn [Upgrade.energy_savings Upgrade.cost_savings Locals.energy_savings_motor
       Locals.cost_savings_motor].
  assert (Hq' : 0 <= inject_Z (Motor.quantity motor))
    by (change 0 with (inject_Z 0); rewrite <- Zle_Qle; exact Hq).
  assert (Hh' : 0 <= inject_Z total_hours)
    by (change 0 with (inject_Z 0); rewrite <- Zle_Qle; exact Hh).
  assert (Hs : 0 <= Motor.rating motor * Motor.load_factor motor * inject_Z total_hours
                    * inject_Z (Motor.quantity motor))
    by (repeat apply Qmult_le_0_compat; assumption).
  pose proof (@quotient_gap _ e e4 Hs ltac:(lra) Hle) as G.
  split; [exact G|]. apply Qmult_le_0_compat; assumption.
Qed.

Lemma upgrade_savings_nonnegative_witness :
  exists u,
    motor_upgrade (F:=Q) 4800 0.12 0 example_motor = Ok u
    /\ 0 <= Upgrade.energy_savings u /\ 0 <= Upgrade.cost_savings u.
Proof.
  apply (@upgrade_savings_nonnegative 4800 0.12 0 example_motor);
    first [apply Qle_bool_imp_le; reflexivity | cbn; lia].
Defined.

(** X4. A motor group that is already IE4 has no energy savings and no
    cost savings; its upgrade cost is the floor of 100, its payback the
    sentinel 999, and it is not recommended. *)
Theorem ie4_group_has_nothing_to_gain
    (total_hours : Z) (electricity_cost : Q) (i : Z) (motor : Motor.t Q) :
  Motor.current_class motor = "IE4"%string ->
  exists u,
    motor_upgrade total_hours electricity_cost i motor = Ok u
    /\ Upgrade.energy_savings u == 0 /\ Upgrade.cost_savings u == 0
    /\ Upgrade.upgrade_cost u == 100
    /\ Upgrade.payback_years u = 999
    /\ add_motor_upgrades [] [u] = Ok [].
Proof.
  intros Hc.
  destruct (motor_locals_exact total_hours electricity_cost motor)
    as (e & e4 & He & He4 & _ & _ & Hv).
  rewrite Hc in He. rewrite He in He4. injection He4 as <-.
  destruct (motor_upgrade_exact total_hours electricity_cost i motor) as (v & Hv' & Hu).
  cbv zeta in Hv. rewrite Hv in Hv'. injection Hv' as <-.
  cbn [Locals.energy_savings_motor Locals.cost_savings_motor Locals.upgrade_cost] in Hu.
  rewrite Hc in Hu.
  set (shaft := Motor.rating motor * Motor.load_factor motor * inject_Z total_hours
                * inject_Z (Motor.quantity motor)) in *.
  assert (Z0 : (shaft / e - shaft / e) * electricity_cost == 0) by ring.
  assert (T : Qle_bool ((shaft / e - shaft / e) * electricity_cost) 0 = true)
    by (apply Qle_bool_iff; rewrite Z0; apply Qle_refl).
  rewrite T in Hu.
  eexists. split; [exact Hu|].
  cbn [Upgrade.energy_savings Upgrade.cost_savings Upgrade.upgrade_cost
       Upgrade.payback_years].
  split; [ring|]. split; [exact Z0|].
  split.
  - rewrite py_max_Qmax.
    change (get_or MOTOR_COSTS "IE4" 50%Z) with 85%Z.
    change (inject_Z (85 - 85)) with 0.
    setoid_replace (Motor.rating motor * inject_Z (Motor.quantity motor) * 0) with 0 by ring.
    reflexivity.
  - split; reflexivity.
Qed.

Lemma ie4_group_witness :
  exists u,
    motor_upgrade (F:=Q) 4800 0.12 0 (set_class example_motor "IE4") = Ok u
    /\ Upgrade.energy_savings u == 0 /\ Upgrade.cost_savings u == 0
    /\ Upgrade.upgrade_cost u == 100
    /\ Upgrade.payback_years u = 999
    /\ add_motor_upgrades [] [u] = Ok [].
Proof.
  apply (@ie4_group_has_nothing_to_gain 4800 0.12 0 (set_class example_motor "IE4")).
  reflexivity.
Defined.

(** ** The upgrade cost *)

Lemma sum_at_least (f : Upgrade.t Q -> Q) (us : list (Upgrade.t Q)) (init : Q) :
  Forall (fun u => 100 <= f u) us ->
  init + 100 * inject_Z (Z.of_nat (List.length us)) <= fold_left Qplus (map f us) init.
Proof.
  revert init. induction us as [|u us IH]; intros init Hall.
  - cbn [List.length map fold_left]. change (inject_Z (Z.of_nat 0)) with 0. lra.
  - apply Forall_cons_iff in Hall. destruct Hall as [Hu Hus].
    cbn [map fold_left]. specialize (IH (init + f u) Hus).
    replace (Z.of_nat (List.length (u :: us))) with (Z.of_nat (List.length us) + 1)%Z
      by (cbn [List.length]; lia).
    rewrite inject_Z_plus. change (inject_Z 1) with 1. lra.
Qed.

(** X5. The motor loop over any inventory gives every upgrade record a
    cost of at least 100, and the upgrade cost it accumulates is the sum of
    these costs, so at least 100 for each motor group. *)
Theorem upgrade_cost_floor
    (total_hours : Z) (electricity_cost : Q) (motors : list (Motor.t Q)) :
  exists st,
    motor_loop total_hours electricity_cost 0 motors loop_init = Ok st
    /\ Forall (fun u => 100 <= Upgrade.upgrade_cost u) (motor_upgrades st)
    /\ total_motor_upgrade_cost st = py_sum (map Upgrade.upgrade_cost (motor_upgrades st))
    /\ 100 * inject_Z (Z.of_nat (List.length motors)) <= total_motor_upgrade_cost st.
Proof.
  destruct (motor_loop_exact total_hours electricity_cost motors 0 loop_init)
    as (us & vs & Hloop & Hus & _).
  eexists. split; [exact Hloop|].
  cbn [motor_upgrades total_motor_upgrade_cost loop_init app].
  assert (Hfloor : Forall (fun u => 100 <= Upgrade.upgrade_cost u) us).
  { clear Hloop. induction Hus as [|im u ims us Hu _ IH]; constructor; [|exact IH].
    unfold upgrade_of in Hu.
    destruct (motor_upgrade_exact total_hours electricity_cost (fst im) (snd im))
      as (v & _ & Hu').
    rewrite Hu' in Hu. injection Hu as <-. cbn [Upgrade.upgrade_cost].
    apply py_max_floor. }
  split; [exact Hfloor|]. split; [reflexivity|].
  cbn [of_int Number_Q].
  pose proof (sum_at_least Upgrade.upgrade_cost (inject_Z 0) Hfloor) as S.
  apply Forall2_length in Hus. rewrite enumerate_length in Hus. rewrite Hus.
  change (inject_Z 0) with 0 in *. lra.
Qed.

(** ** Class names that are not keys *)

(** X6. In any arithmetic, a class name that is none of IE1 to IE4 reads
    the curve and the unit cost of IE2: its efficiency is IE2's at every
    load factor, and a motor group of that class has the local values of
    the same group declared IE2. *)
Theorem unknown_class_is_ie2 {F : Type} `{Number F} (cls : string) :
  unknown_class cls ->
  (forall x : F, get_efficiency cls x = get_efficiency "IE2" x)
  /\ (forall (total_hours : Z) (electricity_cost : F) (motor : Motor.t F),
        Motor.current_class motor = cls ->
        motor_locals total_hours electricity_cost motor =
        motor_locals total_hours electricity_cost (set_class motor "IE2")).
Proof.
  intros (N1 & N2 & N3 & N4).
  apply String.eqb_neq in N1, N2, N3, N4.
  assert (Ec : get_or (EFFICIENCY_CURVES (F:=F)) cls
                 (get_or (EFFICIENCY_CURVES (F:=F)) "IE2" []) =
               get_or (EFFICIENCY_CURVES (F:=F)) "IE2" []).
  { unfold get_or, EFFICIENCY_CURVES. cbn [dict_get]. rewrite N1, N2, N3, N4. reflexivity. }
  assert (Ee : forall x : F, get_efficiency cls x = get_efficiency "IE2" x).
  { intros x. unfold get_efficiency, getitem, get_or, EFFICIENCY_CURVES.
    cbn [dict_get]. rewrite N1, N2, N3, N4. reflexivity. }
  split; [exact Ee|].
  intros total_hours electricity_cost motor Hc.
  unfold motor_locals. cbn [set_class Motor.current_class Motor.load_factor Motor.rating
                           Motor.quantity].
  rewrite Hc, Ee.
  assert (Em : get_or MOTOR_COSTS cls 50%Z = get_or MOTOR_COSTS "IE2" 50%Z).
  { unfold get_or, MOTOR_COSTS. cbn [dict_get]. rewrite N2, N3, N4. reflexivity. }
  unfold getitem. cbn [dict_get MOTOR_COSTS String.eqb Ascii.eqb Bool.eqb bind].
  change (get_or [("IE2"%string, 50%Z); ("IE3"%string, 65%Z); ("IE4"%string, 85%Z)])
    with (get_or MOTOR_COSTS).
  rewrite Em. reflexivity.
Qed.

Lemma unknown_class_witness :
  (forall x : float, get_efficiency "IE5" x = get_efficiency "IE2" x)
  /\ (forall (total_hours : Z) (electricity_cost : float) (motor : Motor.t float),
        Motor.current_class motor = "IE5"%string ->
        motor_locals total_hours electricity_cost motor =
        motor_locals total_hours electricity_cost (set_class motor "IE2")).
Proof.
  apply (@unknown_class_is_ie2 float Number_float "IE5").
  repeat split; discriminate.
Defined.

(** ** Variable-frequency drives *)

(** X7. For a motor group at full load or above, the VFD saves nothing:
    the savings percentage, the saved energy and the cost savings are 0,
    the payback is the sentinel 999, and no VFD is recommended. *)
Theorem vfd_useless_at_full_load
    (total_hours : Z) (electricity_cost : Q) (i : Z) (motor : Motor.t Q) :
  1 <= Motor.load_factor motor ->
  exists v,
    motor_vfd total_hours electricity_cost i motor = Ok v
    /\ Vfd.savings_pct v == 0 /\ Vfd.energy_savings v == 0 /\ Vfd.cost_savings v == 0
    /\ Vfd.payback_years v = 999
    /\ add_vfd_installations [] [v] = Ok [].
Proof.
  intros Hl.
  destruct (motor_vfd_exact total_hours electricity_cost i motor) as (s & Hs & _ & Hv).
  change (vfd_savings_curve (F:=Q)) with (anchors4 0.40 0.25 0.10 0.00) in Hs.
  rewrite lookup_anchors4 in Hs. injection Hs as Hs.
  assert (S0 : s == 0).
  { rewrite <- Hs. rewrite piecewise4_above by lra. reflexivity. }
  cbv zeta in Hv.
  set (saved := Motor.rating motor * Motor.load_factor motor
                * inject_Z (total_hours * Motor.quantity motor) * s) in *.
  assert (Z0 : saved == 0) by (unfold saved; rewrite S0; ring).
  assert (T : Qle_bool (saved * electricity_cost) 0 = true)
    by (apply Qle_bool_iff; rewrite Z0; lra).
  rewrite T in Hv. eexists. split; [exact Hv|].
  cbn [Vfd.savings_pct Vfd.energy_savings Vfd.cost_savings Vfd.payback_years].
  split; [rewrite S0; ring|]. split; [exact Z0|]. split; [rewrite Z0; ring|].
  split; reflexivity.
Qed.

Lemma vfd_useless_at_full_load_witness :
  exists v,
    motor_vfd (F:=Q) 4800 0.12 0 (Motor.mk 15 8 1 "IE2" true) = Ok v
    /\ Vfd.savings_pct v == 0 /\ Vfd.energy_savings v == 0 /\ Vfd.cost_savings v == 0
    /\ Vfd.payback_years v = 999
    /\ add_vfd_installations [] [v] = Ok [].
Proof.
  apply (@vfd_useless_at_full_load 4800 0.12 0 (Motor.mk 15 8 1 "IE2" true)).
  apply Qle_bool_imp_le. reflexivity.
Defined.

(** X8. The savings percentage of a VFD lies between 0 and 40 at every
    load factor and is 40 up to a quarter load; for a rating, a load
    factor, hours and a quantity that are not negative the saved energy
    lies between 0 and 40 percent of the energy drawn without the VFD. *)
Theorem vfd_savings_bounded
    (total_hours : Z) (electricity_cost : Q) (i : Z) (motor : Motor.t Q) :
  exists v,
    motor_vfd total_hours electricity_cost i motor = Ok v
    /\ 0 <= Vfd.savings_pct v <= 40
    /\ (Motor.load_factor motor <= 0.25 -> Vfd.savings_pct v == 40)
    /\ (0 <= Motor.rating motor -> 0 <= Motor.load_factor motor ->
        (0 <= total_hours)%Z -> (0 <= Motor.quantity motor)%Z ->
        0 <= Vfd.energy_savings v
             <= 0.40 * (Motor.rating motor * Motor.load_factor motor
                        * inject_Z (total_hours * Motor.quantity motor))).
Proof.
  destruct (motor_vfd_exact total_hours electricity_cost i motor) as (s & Hs & Bs & Hv).
  cbv zeta in Hv. eexists. split; [exact Hv|].
  cbn [Vfd.savings_pct Vfd.energy_savings].
  split; [lra|]. split.
  - intros Hl.
    change (vfd_savings_curve (F:=Q)) with (anchors4 0.40 0.25 0.10 0.00) in Hs.
    rewrite lookup_anchors4 in Hs. injection Hs as Hs.
    assert (S40 : s == 0.40).
    { rewrite <- Hs. destruct (Qlt_le_dec (Motor.load_factor motor) 0.25) as [A|A].
      - rewrite piecewise4_below by exact A. reflexivity.
      - assert (E : Motor.load_factor motor == 0.25) by lra.
        rewrite piecewise4_first by lra. rewrite E. apply segment_at_left. reflexivity. }
    rewrite S40. reflexivity.
  - intros Hr Hl Hh Hq.
    assert (Hb : 0 <= Motor.rating motor * Motor.load_factor motor
                      * inject_Z (total_hours * Motor.quantity motor)).
    { repeat apply Qmult_le_0_compat; try assumption.
      change 0 with (inject_Z 0). rewrite <- Zle_Qle. apply Z.mul_nonneg_nonneg; assumption. }
    set (base := Motor.rating motor * Motor.load_factor motor
                 * inject_Z (total_hours * Motor.quantity motor)) in *.
    assert (0 <= base * s) by (apply Qmult_le_0_compat; lra).
    assert (0 <= base * (0.40 - s)) by (apply Qmult_le_0_compat; lra).
    lra.
Qed.

(** The payback of two measures whose savings and cost are the same
    multiples of a common factor. *)
Lemma scaled_payback (p1 p2 k a s1 s2 c1 c2 : Q) :
  0 < p1 -> 0 < p2 ->
  s1 == p1 * k -> s2 == p2 * k -> c1 == p1 * a -> c2 == p2 * a ->
  (if Qle_bool s1 0 then 999 else c1 / s1) == (if Qle_bool s2 0 then 999 else c2 / s2).
Proof.
  intros H1 H2 E1 E2 C1 C2.
  destruct (Qlt_le_dec 0 k) as [K|K].
  - assert (0 < p1 * k) by (apply Qmult_lt_0_compat; assumption).
    assert (0 < p2 * k) by (apply Qmult_lt_0_compat; assumption).
    destruct (Qle_bool s1 0) eqn:T1; [apply Qle_bool_iff in T1; lra|].
    destruct (Qle_bool s2 0) eqn:T2; [apply Qle_bool_iff in T2; lra|].
    rewrite E1, E2, C1, C2. field. repeat split; lra.
  - assert (0 <= p1 * - k) by (apply Qmult_le_0_compat; lra).
    assert (0 <= p2 * - k) by (apply Qmult_le_0_compat; lra).
    assert (T1 : Qle_bool s1 0 = true) by (apply Qle_bool_iff; lra).
    assert (T2 : Qle_bool s2 0 = true) by (apply Qle_bool_iff; lra).
    rewrite T1, T2. reflexivity.
Qed.

(** X9. The payback of a VFD does not depend on the size of the motor
    group: two groups at the same load factor, with positive ratings and
    quantities of at least one, have the same VFD payback. *)
Theorem vfd_payback_ignores_size
    (total_hours : Z) (electricity_cost : Q) (i1 i2 : Z) (m1 m2 : Motor.t Q) :
  Motor.load_factor m1 = Motor.load_factor m2 ->
  0 < Motor.rating m1 -> 0 < Motor.rating m2 ->
  (1 <= Motor.quantity m1)%Z -> (1 <= Motor.quantity m2)%Z ->
  exists v1 v2,
    motor_vfd total_hours electricity_cost i1 m1 = Ok v1
    /\ motor_vfd total_hours electricity_cost i2 m2 = Ok v2
    /\ Vfd.payback_years v1 == Vfd.payback_years v2.
Proof.
  intros Hl Hr1 Hr2 Hq1 Hq2.
  destruct (motor_vfd_exact total_hours electricity_cost i1 m1) as (s & Hs & _ & Hv1).
  destruct (motor_vfd_exact total_hours electricity_cost i2 m2) as (s' & Hs' & _ & Hv2).
  rewrite Hl in Hs. rewrite Hs in Hs'. injection Hs' as <-.
  cbv zeta in Hv1, Hv2. do 2 eexists. split; [exact Hv1|]. split; [exact Hv2|].
  cbn [Vfd.payback_years].
  assert (Q1 : 0 < inject_Z (Motor.quantity m1))
    by (change 0 with (inject_Z 0); rewrite <- Zlt_Qlt; lia).
  assert (Q2 : 0 < inject_Z (Motor.quantity m2))
    by (change 0 with (inject_Z 0); rewrite <- Zlt_Qlt; lia).
  apply (@scaled_payback
           (Motor.rating m1 * inject_Z (Motor.quantity m1))
           (Motor.rating m2 * inject_Z (Motor.quantity m2))
           (Motor.load_factor m2 * inject_Z total_hours * s * electricity_cost) 100).
  - apply Qmult_lt_0_compat; assumption.
  - apply Qmult_lt_0_compat; assumption.
  - rewrite Hl, inject_Z_mult. ring.
  - rewrite inject_Z_mult. ring.
  - reflexivity.
  - reflexivity.
Qed.

Lemma vfd_payback_ignores_size_witness :
  exists v1 v2,
    motor_vfd (F:=Q) 4800 0.12 0 (Motor.mk 15 8 0.75 "IE2" true) = Ok v1
    /\ motor_vfd (F:=Q) 4800 0.12 1 (Motor.mk 30 3 0.75 "IE1" true) = Ok v2
    /\ Vfd.payback_years v1 == Vfd.payback_years v2.
Proof.
  apply (@vfd_payback_ignores_size 4800 0.12 0 1
           (Motor.mk 15 8 0.75 "IE2" true) (Motor.mk 30 3 0.75 "IE1" true));
    first [reflexivity | cbn; lia].
Defined.

(** ** The records of a run and the inventory *)

Lemma enumerate_nth {A : Type} (l : list A) : forall i k j x,
  nth_error (enumerate i l) k = Some (j, x) ->
  j = (i + Z.of_nat k)%Z /\ nth_error l k = Some x.
Proof.
  induction l as [|y l IH]; intros i k j x Hk.
  - destruct k; discriminate Hk.
  - destruct k as [|k]; cbn in Hk.
    + injection Hk as <- <-. split; [lia|reflexivity].
    + apply IH in Hk. destruct Hk as [-> Hk]. split; [lia|exact Hk].
Qed.

Lemma enumerate_in {A : Type} (l : list A) : forall i j x,
  In (j, x) (enumerate i l) ->
  exists k, j = (i + Z.of_nat k)%Z /\ nth_error l k = Some x.
Proof.
  induction l as [|y l IH]; intros i j x Hin; [destruct Hin|].
  destruct Hin as [E|Hin].
  - injection E as <- <-. exists 0%nat. split; [cbn; lia|reflexivity].
  - apply IH in Hin. destruct Hin as (k & -> & Hk). exists (S k). split; [lia|exact Hk].
Qed.

Lemma enumerate_increasing {A : Type} (keep : Z * A -> bool) (l : list A) : forall i,
  StronglySorted Z.lt (map fst (filter keep (enumerate i l)))
  /\ Forall (fun j => (i <= j)%Z) (map fst (filter keep (enumerate i l))).
Proof.
  induction l as [|y l IH]; intros i; cbn [enumerate filter map].
  - split; constructor.
  - destruct (IH (i + 1)%Z) as [Hs Hb].
    assert (Hb' : Forall (fun j => (i < j)%Z) (map fst (filter keep (enumerate (i + 1) l))))
      by (eapply Forall_impl; [|exact Hb]; cbn; intros; lia).
    destruct (keep (i, y)); cbn [map fst].
    + split; [constructor; assumption|].
      constructor; [lia|]. eapply Forall_impl; [|exact Hb']. cbn. intros. lia.
    + split; [exact Hs|]. eapply Forall_impl; [|exact Hb']. cbn. intros. lia.
Qed.

Lemma Forall2_nth_left {A B : Type} (R : A -> B -> Prop) (l : list A) (l' : list B) :
  Forall2 R l l' ->
  forall k b, nth_error l' k = Some b -> exists a, nth_error l k = Some a /\ R a b.
Proof.
  induction 1 as [|a b l l' Hab _ IH]; intros k b' Hk.
  - destruct k; discriminate Hk.
  - destruct k as [|k]; cbn in Hk.
    + injection Hk as <-. exists a. split; [reflexivity|exact Hab].
    + apply IH in Hk. exact Hk.
Qed.

Lemma Forall2_in_left {A B : Type} (R : A -> B -> Prop) (l : list A) (l' : list B) :
  Forall2 R l l' -> forall b, In b l' -> exists a, In a l /\ R a b.
Proof.
  induction 1 as [|a b l l' Hab _ IH]; intros b' Hin; [destruct Hin|].
  destruct Hin as [<-|Hin].
  - exists a. split; [left; reflexivity|exact Hab].
  - destruct (IH b' Hin) as (a' & Ha' & Hr). exists a'. split; [right; exact Ha'|exact Hr].
Qed.

Lemma Forall2_map_eq {A B C : Type} (R : A -> B -> Prop) (f : A -> C) (g : B -> C)
    (l : list A) (l' : list B) :
  (forall a b, R a b -> f a = g b) -> Forall2 R l l' -> map f l = map g l'.
Proof.
  intros Hfg. induction 1 as [|a b l l' Hab _ IH]; [reflexivity|].
  cbn [map]. rewrite (Hfg a b Hab), IH. reflexivity.
Qed.

Lemma upgrade_of_fields total_hours electricity_cost im u :
  upgrade_of total_hours electricity_cost im u ->
  Upgrade.motor_id u = (fst im + 1)%Z
  /\ Upgrade.rating u = Motor.rating (snd im)
  /\ Upgrade.quantity u = Motor.quantity (snd im)
  /\ Upgrade.current_class u = Motor.current_class (snd im).
Proof.
  unfold upgrade_of. intros Hu.
  destruct (motor_upgrade_exact total_hours electricity_cost (fst im) (snd im))
    as (v & _ & Hu').
  rewrite Hu' in Hu. injection Hu as <-. repeat split.
Qed.

Lemma vfd_of_fields total_hours electricity_cost im v :
  vfd_of total_hours electricity_cost im v ->
  Vfd.motor_id v = (fst im + 1)%Z
  /\ Vfd.rating v = Motor.rating (snd im)
  /\ Vfd.quantity v = Motor.quantity (snd im).
Proof.
  unfold vfd_of. intros Hv.
  destruct (motor_vfd_exact total_hours electricity_cost (fst im) (snd im))
    as (s & _ & _ & Hv').
  cbv zeta in Hv'. rewrite Hv' in Hv. injection Hv as <-. repeat split.
Qed.

(** X10. The records of the motor loop stay aligned with the inventory:
    the k-th upgrade record (counting from 0) describes the k-th motor
    group and carries the identifier k+1; every VFD record carries the
    identifier, rating and quantity of a motor group whose VFD box is
    ticked; the VFD identifiers strictly increase. *)
Theorem records_follow_inventory
    (total_hours : Z) (electricity_cost : Q) (motors : list (Motor.t Q)) :
  exists st,
    motor_loop total_hours electricity_cost 0 motors loop_init = Ok st
    /\ (forall k u, nth_error (motor_upgrades st) k = Some u ->
        exists m, nth_error motors k = Some m
                  /\ Upgrade.motor_id u = (Z.of_nat k + 1)%Z
                  /\ Upgrade.rating u = Motor.rating m
                  /\ Upgrade.quantity u = Motor.quantity m
                  /\ Upgrade.current_class u = Motor.current_class m)
    /\ (forall v, In v (vfd_savings st) ->
        exists k m, nth_error motors k = Some m
                    /\ Motor.vfd_applicable m = true
                    /\ Vfd.motor_id v = (Z.of_nat k + 1)%Z
                    /\ Vfd.rating v = Motor.rating m
                    /\ Vfd.quantity v = Motor.quantity m)
    /\ StronglySorted Z.lt (map Vfd.motor_id (vfd_savings st)).
Proof.
  destruct (motor_loop_exact total_hours electricity_cost motors 0 loop_init)
    as (us & vs & Hloop & Hus & Hvs).
  eexists. split; [exact Hloop|].
  cbn [motor_upgrades vfd_savings loop_init app].
  split; [|split].
  - intros k u Hk.
    destruct (Forall2_nth_left Hus k Hk) as ([j m] & Hjm & Hu).
    apply enumerate_nth in Hjm. destruct Hjm as [-> Hm].
    apply upgrade_of_fields in Hu. cbn [fst snd] in Hu.
    destruct Hu as (Hid & Hr & Hq & Hc).
    exists m. repeat split; first [assumption | rewrite Hid; lia].
  - intros v Hin.
    destruct (Forall2_in_left Hvs v Hin) as ([j m] & Hjm & Hv).
    apply filter_In in Hjm. destruct Hjm as [Hjm Ht].
    apply enumerate_in in Hjm. destruct Hjm as (k & -> & Hm).
    apply vfd_of_fields in Hv. cbn [fst snd] in Hv. destruct Hv as (Hid & Hr & Hq).
    exists k, m. repeat split; first [assumption | rewrite Hid; lia].
  - assert (E : map (fun im : Z * Motor.t Q => (fst im + 1)%Z)
                  (filter ticked (enumerate 0 motors))
                = map Vfd.motor_id vs).
    { apply (Forall2_map_eq (R := vfd_of total_hours electricity_cost)); [|exact Hvs].
      intros im v Hv. apply vfd_of_fields in Hv. symmetry. apply Hv. }
    rewrite <- E.
    destruct (enumerate_increasing ticked motors 0) as [Hs _].
    revert Hs. generalize (filter ticked (enumerate 0 motors)). intros l.
    induction l as [|im l IH]; cbn [map]; intros Hs; [constructor|].
    apply StronglySorted_inv in Hs. destruct Hs as [Hs Hh].
    constructor; [apply IH; exact Hs|].
    rewrite Forall_map in *. eapply Forall_impl; [|exact Hh]. cbn. intros. lia.
Qed.

(** ** Priorities and order of the recommendations *)

Lemma candidates_priority num_fixtures led_wattage motors vfds lighting r :
  In r (candidates num_fixtures led_wattage motors vfds lighting) ->
  Rec.priority r = priority_of (Rec.payback r)
  /\ Rec.sort_key r = rank_key (Rec.payback r)
  /\ ((exists m, In m motors /\ Rec.payback r = Upgrade.payback_years m)
      \/ (exists v, In v vfds /\ Rec.payback r = Vfd.payback_years v)
      \/ Rec.payback r = Lighting.payback_years lighting).
Proof.
  unfold candidates. rewrite !in_app_iff, !in_map_iff.
  intros [(m & <- & Hm)|[(v & <- & Hv)|Hl]].
  - apply filter_In in Hm. repeat split. left. exists m. split; [apply Hm|reflexivity].
  - apply filter_In in Hv. repeat split. right; left. exists v. split; [apply Hv|reflexivity].
  - destruct (Qle_bool (Lighting.payback_years lighting) 5); [|destruct Hl].
    destruct Hl as [<-|[]]. repeat split. right; right. reflexivity.
Qed.

Lemma priority_of_cases (p : Q) :
  (priority_of p = "High"%string /\ p <= 2) \/ (priority_of p = "Medium"%string /\ 2 < p).
Proof.
  unfold priority_of. cbn [leb of_int Number_Q]. change (inject_Z 2) with 2.
  destruct (Qle_bool p 2) eqn:T.
  - left. split; [reflexivity|]. apply Qle_bool_iff. exact T.
  - right. split; [reflexivity|].
    apply not_true_iff_false in T. rewrite Qle_bool_iff in T. apply Qnot_le_lt. exact T.
Qed.

(** X11. When the ranker returns, every recommendation is of priority
    High or Medium, never any other: High exactly when its payback is at
    most 2 years, Medium when it is longer.  It returns whenever every
    motor upgrade within the ceiling has a class name that is not empty. *)
Theorem priority_high_or_medium (num_fixtures led_wattage : Z)
    (motors : list (Upgrade.t Q)) (vfds : list (Vfd.t Q)) (lighting : Lighting.t Q) :
  classes_printable motors ->
  exists out,
    recommend num_fixtures led_wattage motors vfds lighting = Ok out
    /\ forall r, In r out ->
         (Rec.priority r = "High"%string /\ Rec.payback r <= 2)
         \/ (Rec.priority r = "Medium"%string /\ 2 < Rec.payback r).
Proof.
  intros Hp. rewrite recommend_returns by exact Hp. eexists. split; [reflexivity|].
  intros r Hr.
  apply (Permutation_in _ (Permutation_sym (sort_reverse_perm Rec.sort_key _))) in Hr.
  apply candidates_priority in Hr. destruct Hr as (Hq & _). rewrite Hq.
  apply priority_of_cases.
Qed.

Lemma priority_high_or_medium_witness :
  exists out,
    recommend 200 16 [quick_upgrade] [slow_vfd] slow_lighting = Ok out
    /\ forall r, In r out ->
         (Rec.priority r = "High"%string /\ Rec.payback r <= 2)
         \/ (Rec.priority r = "Medium"%string /\ 2 < Rec.payback r).
Proof.
  apply (@priority_high_or_medium 200 16 [quick_upgrade] [slow_vfd] slow_lighting).
  intros m [<-|[]] _. discriminate.
Defined.

Lemma strongly_sorted_on {A : Type} (R R' : A -> A -> Prop) (P : A -> Prop) (l : list A) :
  (forall a b, P a -> P b -> R a b -> R' a b) ->
  Forall P l -> StronglySorted R l -> StronglySorted R' l.
Proof.
  intros HR HP HS. induction HS as [|a l HS IH Ha]; [constructor|].
  apply Forall_cons_iff in HP. destruct HP as [Pa Pl].
  constructor; [apply IH; exact Pl|].
  rewrite Forall_forall in *. intros b Hb. apply HR; auto.
Qed.

Lemma rank_key_reverses (p q : Q) :
  0 < p -> 0 < q -> rank_key q <= rank_key p -> p <= q.
Proof.
  intros Hp Hq. unfold rank_key.
  destruct (Qle_bool p 0) eqn:Tp; [apply Qle_bool_iff in Tp; lra|].
  destruct (Qle_bool q 0) eqn:Tq; [apply Qle_bool_iff in Tq; lra|].
  intros Hk. apply Qnot_lt_le. intros Hlt.
  apply (proj1 (Qinv_lt_contravar q p Hq Hp)) in Hlt.
  unfold Qdiv in Hk. rewrite !Qmult_1_l in Hk. lra.
Qed.

(** X12. When every payback is positive and every motor upgrade within
    the ceiling has a class name that is not empty, the ranker returns the
    recommendations in order of payback, shortest first, so that no entry
    of priority High follows an entry of priority Medium. *)
Theorem shortest_payback_first (num_fixtures led_wattage : Z)
    (motors : list (Upgrade.t Q)) (vfds : list (Vfd.t Q)) (lighting : Lighting.t Q) :
  classes_printable motors ->
  (forall m, In m motors -> 0 < Upgrade.payback_years m) ->
  (forall v, In v vfds -> 0 < Vfd.payback_years v) ->
  0 < Lighting.payback_years lighting ->
  exists out,
    recommend num_fixtures led_wattage motors vfds lighting = Ok out
    /\ payback_ascending out
    /\ StronglySorted
         (fun a b => Rec.priority a = "Medium"%string -> Rec.priority b = "Medium"%string) out.
Proof.
  intros Hp Hm Hv Hl.
  rewrite recommend_returns by exact Hp. eexists. split; [reflexivity|].
  set (cs := candidates num_fixtures led_wattage motors vfds lighting).
  assert (Hall : Forall (fun r => 0 < Rec.payback r
                                  /\ Rec.sort_key r = rank_key (Rec.payback r)
                                  /\ Rec.priority r = priority_of (Rec.payback r))
                   (sort_reverse Rec.sort_key cs)).
  { apply Forall_forall. intros r Hr.
    apply (Permutation_in _ (Permutation_sym (sort_reverse_perm Rec.sort_key cs))) in Hr.
    apply candidates_priority in Hr. destruct Hr as (Hq & Hk & Hsrc).
    split; [|split; assumption].
    destruct Hsrc as [(m & Hin & E)|[(v & Hin & E)|E]]; rewrite E; auto. }
  assert (Hasc : payback_ascending (sort_reverse Rec.sort_key cs)).
  { unfold payback_ascending.
    eapply strongly_sorted_on; [|exact Hall|apply sort_reverse_descending].
    cbn beta. intros a b (Pa & Ka & _) (Pb & Kb & _) Hk. rewrite Ka, Kb in Hk.
    apply rank_key_reverses; assumption. }
  split; [exact Hasc|].
  eapply strongly_sorted_on; [|exact Hall|exact Hasc].
  cbn beta. intros a b (_ & _ & Qa) (_ & _ & Qb) Hab. rewrite Qa, Qb.
  destruct (priority_of_cases (Rec.payback a)) as [[Ea _]|[_ Ha]];
    [rewrite Ea; discriminate|].
  destruct (priority_of_cases (Rec.payback b)) as [[_ Hb]|[Eb _]]; [lra|].
  intros _. exact Eb.
Qed.

Lemma shortest_payback_first_witness :
  exists out,
    recommend 200 16 [quick_upgrade] [slow_vfd] slow_lighting = Ok out
    /\ payback_ascending out
    /\ StronglySorted
         (fun a b => Rec.priority a = "Medium"%string -> Rec.priority b = "Medium"%string) out.
Proof.
  apply (@shortest_payback_first 200 16 [quick_upgrade] [slow_vfd] slow_lighting).
  - intros m [<-|[]] _. discriminate.
  - intros m [<-|[]]. reflexivity.
  - intros v [<-|[]]. reflexivity.
  - reflexivity.
Defined.

(** ** The lighting retrofit *)

Lemma lighting_saved_factor (electricity_cost : Q)
    (num_fixtures wattage_per hours led_wattage : Z) :
  (inject_Z (num_fixtures * wattage_per * hours) / 1000
   - inject_Z (num_fixtures * led_wattage * hours) / 1000) * electricity_cost
  == inject_Z num_fixtures
     * (inject_Z (wattage_per - led_wattage) * inject_Z hours / 1000 * electricity_cost).
Proof.
  unfold Zminus. rewrite !inject_Z_mult, inject_Z_plus, inject_Z_opp. field.
Qed.

(** X13. The energy a lighting retrofit saves is fixtures times the drop
    in wattage times the annual lighting hours over 1000.  With counts,
    hours and a tariff that are not negative, a LED wattage of at most the
    current one never gives negative savings, and a LED wattage of at least
    the current one gives the sentinel payback 999 and no recommendation. *)
Theorem lighting_savings_follow_wattage
    (electricity_cost : Q)
    (num_fixtures wattage_per daily_hours operating_days led_wattage : Z) :
  (0 <= num_fixtures)%Z -> (0 <= daily_hours * operating_days)%Z -> 0 <= electricity_cost ->
  exists l,
    lighting_retrofit electricity_cost num_fixtures wattage_per daily_hours operating_days
      led_wattage = Ok l
    /\ Lighting.energy_savings l ==
         inject_Z num_fixtures * inject_Z (wattage_per - led_wattage)
         * inject_Z (daily_hours * operating_days) / 1000
    /\ ((led_wattage <= wattage_per)%Z ->
        0 <= Lighting.energy_savings l /\ 0 <= Lighting.cost_savings l)
    /\ ((wattage_per <= led_wattage)%Z ->
        Lighting.payback_years l = 999
        /\ add_lighting_retrofit num_fixtures led_wattage [] l = Ok []).
Proof.
  intros Hn Hh Hc. rewrite lighting_retrofit_exact. cbv zeta.
  eexists. split; [reflexivity|].
  cbn [Lighting.energy_savings Lighting.cost_savings Lighting.payback_years].
  pose proof (lighting_saved_factor electricity_cost num_fixtures wattage_per
                (daily_hours * operating_days) led_wattage) as E.
  pose proof (lighting_saved_factor 1 num_fixtures wattage_per
                (daily_hours * operating_days) led_wattage) as E1.
  assert (Hn' : 0 <= inject_Z num_fixtures)
    by (change 0 with (inject_Z 0); rewrite <- Zle_Qle; exact Hn).
  assert (Hh' : 0 <= inject_Z (daily_hours * operating_days))
    by (change 0 with (inject_Z 0); rewrite <- Zle_Qle; exact Hh).
  set (cur := inject_Z (num_fixtures * wattage_per * (daily_hours * operating_days)) / 1000)
    in *.
  set (led := inject_Z (num_fixtures * led_wattage * (daily_hours * operating_days)) / 1000)
    in *.
  set (nh := inject_Z num_fixtures * inject_Z (daily_hours * operating_days)).
  assert (Hnh : 0 <= nh) by (apply Qmult_le_0_compat; assumption).
  assert (Es : cur - led == nh * inject_Z (wattage_per - led_wattage) * (1 # 1000)).
  { setoid_replace (cur - led) with ((cur - led) * 1) by ring. rewrite E1.
    unfold nh. field. }
  split; [rewrite Es; unfold nh; field|]. split.
  - intros Hw.
    assert (Hw' : 0 <= inject_Z (wattage_per - led_wattage))
      by (change 0 with (inject_Z 0); rewrite <- Zle_Qle; lia).
    assert (0 <= nh * inject_Z (wattage_per - led_wattage))
      by (apply Qmult_le_0_compat; assumption).
    assert (Hs : 0 <= cur - led) by (rewrite Es; lra).
    split; [exact Hs|]. apply Qmult_le_0_compat; assumption.
  - intros Hw.
    assert (Hw' : 0 <= - inject_Z (wattage_per - led_wattage))
      by (rewrite <- inject_Z_opp; change 0 with (inject_Z 0); rewrite <- Zle_Qle; lia).
    assert (0 <= nh * - inject_Z (wattage_per - led_wattage))
      by (apply Qmult_le_0_compat; assumption).
    assert (Hs : cur - led <= 0) by (rewrite Es; lra).
    assert (0 <= (- (cur - led)) * electricity_cost) by (apply Qmult_le_0_compat; lra).
    assert (T : Qle_bool ((cur - led) * electricity_cost) 0 = true)
      by (apply Qle_bool_iff; lra).
    rewrite T. split; reflexivity.
Qed.

Lemma lighting_savings_follow_wattage_witness :
  exists l,
    lighting_retrofit (F:=Q) 0.12 200 40 16 300 16 = Ok l
    /\ Lighting.energy_savings l ==
         inject_Z 200 * inject_Z (40 - 16) * inject_Z (16 * 300) / 1000
    /\ ((16 <= 40)%Z -> 0 <= Lighting.energy_savings l /\ 0 <= Lighting.cost_savings l)
    /\ ((40 <= 16)%Z ->
        Lighting.payback_years l = 999 /\ add_lighting_retrofit 200 16 [] l = Ok []).
Proof.
  apply (@lighting_savings_follow_wattage 0.12 200 40 16 300 16);
    first [apply Qle_bool_imp_le; reflexivity | lia].
Defined.

(** X14. The payback of the lighting retrofit does not depend on the
    number of fixtures: two configurations that differ only in a count of
    at least one fixture have the same payback. *)
Theorem lighting_payback_ignores_fixtures
    (electricity_cost : Q) (n1 n2 wattage_per daily_hours operating_days led_wattage : Z) :
  (1 <= n1)%Z -> (1 <= n2)%Z ->
  exists l1 l2,
    lighting_retrofit electricity_cost n1 wattage_per daily_hours operating_days led_wattage
      = Ok l1
    /\ lighting_retrofit electricity_cost n2 wattage_per daily_hours operating_days
         led_wattage = Ok l2
    /\ Lighting.payback_years l1 == Lighting.payback_years l2.
Proof.
  intros H1 H2. rewrite !lighting_retrofit_exact. cbv zeta.
  do 2 eexists. split; [reflexivity|]. split; [reflexivity|].
  cbn [Lighting.payback_years].
  apply (@scaled_payback (inject_Z n1) (inject_Z n2)
           (inject_Z (wattage_per - led_wattage) * inject_Z (daily_hours * operating_days)
            / 1000 * electricity_cost) 150).
  - change 0 with (inject_Z 0). rewrite <- Zlt_Qlt. lia.
  - change 0 with (inject_Z 0). rewrite <- Zlt_Qlt. lia.
  - apply lighting_saved_factor.
  - apply lighting_saved_factor.
  - rewrite !inject_Z_mult. change (inject_Z 15) with 15. change (inject_Z 10) with 10. ring.
  - rewrite !inject_Z_mult. change (inject_Z 15) with 15. change (inject_Z 10) with 10. ring.
Qed.

Lemma lighting_payback_ignores_fixtures_witness :
  exists l1 l2,
    lighting_retrofit (F:=Q) 0.12 200 40 16 300 16 = Ok l1
    /\ lighting_retrofit (F:=Q) 0.12 1000 40 16 300 16 = Ok l2
    /\ Lighting.payback_years l1 == Lighting.payback_years l2.
Proof.
  apply (@lighting_payback_ignores_fixtures 0.12 200 1000 40 16 300 16); lia.
Defined.

(** X15. For counts, a wattage and hours of at least one, the percentage
    of the results page and the percentage of the lighting page are both
    defined and equal: the drop in wattage over the current wattage, times
    100, whatever the number of fixtures and the hours. *)
Theorem lighting_percentages_agree
    (electricity_cost : Q)
    (num_fixtures wattage_per daily_hours operating_days led_wattage : Z) :
  (1 <= num_fixtures)%Z -> (1 <= wattage_per)%Z ->
  (1 <= daily_hours)%Z -> (1 <= operating_days)%Z ->
  exists l p,
    lighting_retrofit electricity_cost num_fixtures wattage_per daily_hours operating_days
      led_wattage = Ok l
    /\ energy_savings_delta l = Ok p
    /\ potential_savings (Lighting.current_energy l) (Lighting.led_energy l) = Ok (Some p)
    /\ p == inject_Z (wattage_per - led_wattage) / inject_Z wattage_per * 100.
Proof.
  intros Hn Hw Hd Ho. rewrite lighting_retrofit_exact. cbv zeta.
  assert (Hpos : (0 < num_fixtures * wattage_per * (daily_hours * operating_days))%Z)
    by (repeat apply Z.mul_pos_pos; lia).
  assert (Hcur : 0 < inject_Z (num_fixtures * wattage_per * (daily_hours * operating_days))
                     / 1000).
  { apply Qlt_shift_div_l; [reflexivity|]. rewrite Qmult_0_l.
    change 0 with (inject_Z 0). rewrite <- Zlt_Qlt. exact Hpos. }
  do 2 eexists. split; [reflexivity|].
  unfold energy_savings_delta, potential_savings.
  cbn [Lighting.energy_savings Lighting.current_energy Lighting.led_energy
       ltb of_int sub mul Number_Q].
  rewrite !truediv_defined by lra. cbn [bind].
  assert (T : Qle_bool (inject_Z (num_fixtures * wattage_per * (daily_hours * operating_days))
                        / 1000) (inject_Z 0) = false).
  { apply not_true_iff_false. rewrite Qle_bool_iff. change (inject_Z 0) with 0. lra. }
  rewrite T. cbn [negb].
  split; [reflexivity|]. split; [reflexivity|].
  assert (F1 : 0 < inject_Z num_fixtures)
    by (change 0 with (inject_Z 0); rewrite <- Zlt_Qlt; lia).
  assert (F2 : 0 < inject_Z wattage_per)
    by (change 0 with (inject_Z 0); rewrite <- Zlt_Qlt; lia).
  assert (F3 : 0 < inject_Z daily_hours)
    by (change 0 with (inject_Z 0); rewrite <- Zlt_Qlt; lia).
  assert (F4 : 0 < inject_Z operating_days)
    by (change 0 with (inject_Z 0); rewrite <- Zlt_Qlt; lia).
  clear Hcur T. unfold Zminus. rewrite !inject_Z_mult, inject_Z_plus, inject_Z_opp.
  change (inject_Z 100) with 100.
  field. repeat split; lra.
Qed.

Lemma lighting_percentages_agree_witness :
  exists l p,
    lighting_retrofit (F:=Q) 0.12 200 40 16 300 16 = Ok l
    /\ energy_savings_delta l = Ok p
    /\ potential_savings (Lighting.current_energy l) (Lighting.led_energy l) = Ok (Some p)
    /\ p == inject_Z (40 - 16) / inject_Z 40 * 100.
Proof.
  apply (@lighting_percentages_agree 0.12 200 40 16 300 16); lia.
Defined.

(** X16. When the current lighting draws no energy (no fixture, no
    wattage or no hours) the lighting page shows no percentage, while the
    percentage of the results page raises a division by zero. *)
Theorem lighting_percentage_without_energy
    (electricity_cost : Q)
    (num_fixtures wattage_per daily_hours operating_days led_wattage : Z) :
  (num_fixtures * wattage_per * (daily_hours * operating_days) = 0)%Z ->
  exists l,
    lighting_retrofit electricity_cost num_fixtures wattage_per daily_hours operating_days
      led_wattage = Ok l
    /\ potential_savings (Lighting.current_energy l) (Lighting.led_energy l) = Ok None
    /\ energy_savings_delta l = Raise ZeroDivisionError.
Proof.
  intros Hz. rewrite lighting_retrofit_exact. cbv zeta. rewrite Hz.
  eexists. split; [reflexivity|].
  unfold energy_savings_delta, potential_savings.
  cbn [Lighting.energy_savings Lighting.current_energy Lighting.led_energy].
  split; reflexivity.
Qed.

Lemma lighting_percentage_without_energy_witness :
  exists l,
    lighting_retrofit (F:=Q) 0.12 0 40 16 300 16 = Ok l
    /\ potential_savings (Lighting.current_energy l) (Lighting.led_energy l) = Ok None
    /\ energy_savings_delta l = Raise ZeroDivisionError.
Proof.
  apply (@lighting_percentage_without_energy 0.12 0 40 16 300 16). reflexivity.
Defined.

(** ** The 10-year projection *)

Ltac year_cases y H :=
  let C := fresh "C" in
  assert (C : (y = 1 \/ y = 2 \/ y = 3 \/ y = 4 \/ y = 5 \/ y = 6 \/ y = 7 \/ y = 8
               \/ y = 9 \/ y = 10)%Z) by lia;
  repeat (destruct C as [C|C]; [subst y|]); [..|subst y].

Lemma break_even_spec (savings upgrades vfds : Q) (lighting : Z) :
  exists r,
    break_even savings upgrades vfds lighting = Ok r
    /\ (forall y, r = Some y ->
        (1 <= y <= 10)%Z
        /\ upgrades + vfds + inject_Z lighting <= savings * inject_Z y
        /\ forall y', (1 <= y' < y)%Z ->
                      savings * inject_Z y' < upgrades + vfds + inject_Z lighting)
    /\ (r = None ->
        forall y, (1 <= y <= 10)%Z ->
                  savings * inject_Z y < upgrades + vfds + inject_Z lighting).
Proof.
  unfold break_even, net_savings, cumulative_savings, cumulative_cost, years.
  cbn [List.length seq comprehension item nth_error map repeat bind find_break_even
       leb of_int add sub mul Number_Q].
  change (inject_Z 0) with 0.
  set (cost := upgrades + vfds + inject_Z lighting).
  split_tests; (eexists; split; [reflexivity|]); split.
  all: try (intros y E; discriminate E).
  all: try (intros E; discriminate E).
  all: try (intros y E; injection E as <-; split; [lia|]; split; [lra|];
            intros y' Hy'; year_cases y' Hy'; first [lia | lra]).
  intros _ y Hy. year_cases y Hy; lra.
Qed.

(** X17. The projection always yields a result.  A break-even year lies
    between 1 and 10, is a year whose cumulative savings cover the whole
    investment, and is the first such year; when none is reported no year
    from 1 to 10 covers it.  The success message is shown exactly when a
    year was found. *)
Theorem break_even_is_first_year (savings upgrades vfds : Q) (lighting : Z) :
  exists r,
    break_even savings upgrades vfds lighting = Ok r
    /\ (forall y, r = Some y ->
        (1 <= y <= 10)%Z
        /\ upgrades + vfds + inject_Z lighting <= savings * inject_Z y
        /\ forall y', (1 <= y' < y)%Z ->
                      savings * inject_Z y' < upgrades + vfds + inject_Z lighting)
    /\ (r = None ->
        forall y, (1 <= y <= 10)%Z ->
                  savings * inject_Z y < upgrades + vfds + inject_Z lighting)
    /\ (shows_break_even r = true <-> r <> None).
Proof.
  destruct (break_even_spec savings upgrades vfds lighting) as (r & Hr & Hsome & Hnone).
  exists r. split; [exact Hr|]. split; [exact Hsome|]. split; [exact Hnone|].
  destruct r as [y|]; cbn [shows_break_even].
  - destruct (Hsome y eq_refl) as (Hy & _).
    split; [intros _; discriminate|]. intros _.
    apply negb_true_iff. apply Z.eqb_neq. lia.
  - split; [discriminate|]. intros N. contradiction.
Qed.

(** X18. With positive annual savings and a positive investment, the
    break-even year is the overall payback (investment over annual savings)
    rounded up to a whole year, between 1 and 10, and none is reported
    exactly when that payback exceeds 10 years; without positive savings a
    positive investment never breaks even. *)
Theorem break_even_rounds_payback (savings upgrades vfds : Q) (lighting : Z) :
  0 < upgrades + vfds + inject_Z lighting ->
  exists r,
    break_even savings upgrades vfds lighting = Ok r
    /\ (0 < savings ->
        (forall y, r = Some y <->
           (1 <= y <= 10)%Z
           /\ inject_Z y - 1 < (upgrades + vfds + inject_Z lighting) / savings <= inject_Z y)
        /\ (r = None <-> 10 < (upgrades + vfds + inject_Z lighting) / savings))
    /\ (savings <= 0 -> r = None).
Proof.
  intros Hcost.
  destruct (break_even_spec savings upgrades vfds lighting) as (r & Hr & Hsome & Hnone).
  exists r. split; [exact Hr|].
  set (cost := upgrades + vfds + inject_Z lighting) in *.
  assert (Hround : 0 < savings -> forall y, r = Some y ->
            (1 <= y <= 10)%Z /\ inject_Z y - 1 < cost / savings <= inject_Z y).
  { intros Hs y E. destruct (Hsome y E) as (Hy & Hcover & Hfirst).
    split; [exact Hy|]. split.
    - apply Qlt_shift_div_l; [exact Hs|].
      destruct (Z.eq_dec y 1) as [->|Hn].
      + change (inject_Z 1) with 1. lra.
      + specialize (Hfirst (y - 1)%Z ltac:(lia)).
        unfold Zminus in Hfirst. rewrite inject_Z_plus, inject_Z_opp in Hfirst.
        change (inject_Z 1) with 1 in Hfirst. lra.
    - apply Qle_shift_div_r; [exact Hs|]. lra. }
  assert (Hlate : 0 < savings -> r = None -> 10 < cost / savings).
  { intros Hs E. specialize (Hnone E 10%Z ltac:(lia)).
    apply Qlt_shift_div_l; [exact Hs|]. change (inject_Z 10) with 10 in Hnone. lra. }
  split.
  - intros Hs. split.
    + intros y. split; [apply Hround; exact Hs|].
      intros (Hy & Hlo & Hhi). destruct r as [y'|].
      * destruct (Hround Hs y' eq_refl) as (Hy' & Hlo' & Hhi').
        f_equal.
        assert (L1 : inject_Z y' - 1 < inject_Z y) by lra.
        assert (L2 : inject_Z y - 1 < inject_Z y') by lra.
        assert (M1 : inject_Z (y' - 1) < inject_Z y)
          by (unfold Zminus; rewrite inject_Z_plus, inject_Z_opp;
              change (inject_Z 1) with 1; lra).
        assert (M2 : inject_Z (y - 1) < inject_Z y')
          by (unfold Zminus; rewrite inject_Z_plus, inject_Z_opp;
              change (inject_Z 1) with 1; lra).
        rewrite <- Zlt_Qlt in M1, M2. lia.
      * specialize (Hlate Hs eq_refl).
        assert (inject_Z y <= 10)
          by (change 10 with (inject_Z 10); rewrite <- Zle_Qle; lia).
        lra.
    + split; [apply Hlate; exact Hs|].
      intros Hbig. destruct r as [y|]; [|reflexivity].
      destruct (Hround Hs y eq_refl) as (Hy & _ & Hhi).
      assert (inject_Z y <= 10)
        by (change 10 with (inject_Z 10); rewrite <- Zle_Qle; lia).
      lra.
  - intros Hs. destruct r as [y|]; [|reflexivity].
    destruct (Hsome y eq_refl) as (Hy & Hcover & _).
    assert (0 < inject_Z y) by (change 0 with (inject_Z 0); rewrite <- Zlt_Qlt; lia).
    assert (0 <= (- savings) * inject_Z y) by (apply Qmult_le_0_compat; lra).
    lra.
Qed.

Lemma break_even_rounds_payback_witness :
  exists r,
    break_even (F:=Q) 10980 4200 12000 30000 = Ok r
    /\ (0 < 10980 ->
        (forall y, r = Some y <->
           (1 <= y <= 10)%Z
           /\ inject_Z y - 1 < (4200 + 12000 + inject_Z 30000) / 10980 <= inject_Z y)
        /\ (r = None <-> 10 < (4200 + 12000 + inject_Z 30000) / 10980))
    /\ (10980 <= 0 -> r = None).
Proof.
  apply (@break_even_rounds_payback 10980 4200 12000 30000). reflexivity.
Defined.

(** ** Default inventories *)

(** X19. In any arithmetic, a factory type that has no table of its own
    gets the Textile defaults, for the motors and for the lighting; this is
    the case of the types Chemical, Metal Fabrication and Plastics that the
    sidebar offers. *)
Theorem defaults_fall_back_to_textile {F : Type} `{Number F} (factory_type : string) :
  factory_type <> "Textile"%string -> factory_type <> "Automotive"%string ->
  factory_type <> "Food Processing"%string ->
  get_default_motors (F:=F) factory_type = get_default_motors "Textile"
  /\ get_default_lighting factory_type = get_default_lighting "Textile".
Proof.
  intros N1 N2 N3. apply String.eqb_neq in N1, N2, N3.
  unfold get_default_motors, get_default_lighting, getitem, get_or,
    default_motors, default_lighting.
  cbn [dict_get]. rewrite N1, N2, N3. split; reflexivity.
Qed.

Lemma defaults_fall_back_witness :
  (get_default_motors (F:=float) "Chemical" = get_default_motors "Textile"
   /\ get_default_lighting "Chemical" = get_default_lighting "Textile")
  /\ (get_default_motors (F:=float) "Metal Fabrication" = get_default_motors "Textile"
      /\ get_default_lighting "Metal Fabrication" = get_default_lighting "Textile")
  /\ (get_default_motors (F:=float) "Plastics" = get_default_motors "Textile"
      /\ get_default_lighting "Plastics" = get_default_lighting "Textile").
Proof.
  split; [|split].
  - apply (@defaults_fall_back_to_textile float Number_float "Chemical"); discriminate.
  - apply (@defaults_fall_back_to_textile float Number_float "Metal Fabrication");
      discriminate.
  - apply (@defaults_fall_back_to_textile float Number_float "Plastics"); discriminate.
Defined.

Ltac in_ranges :=
  repeat match goal with
         | |- _ /\ _ => split
         | |- exists _, _ => eexists; reflexivity
         | |- (_ <= _)%Z => lia
         | |- _ <= _ => apply Qle_bool_imp_le; reflexivity
         end.

(** X20. For every factory type the defaults are four motor groups and
    one lighting configuration that fit the widgets they are fed to: each
    rating, quantity, load factor, fixture count, wattage and number of
    hours lies in the range of its widget, and each class and lighting type
    is among the options of its select box, so that looking up its index
    does not fail. *)
Theorem defaults_fit_widgets (factory_type : string) :
  exists ms l,
    get_default_motors (F:=Q) factory_type = Ok ms
    /\ List.length ms = 4%nat
    /\ Forall motor_in_widget_ranges ms
    /\ get_default_lighting factory_type = Ok l
    /\ lighting_in_widget_ranges l.
Proof.
  unfold get_default_motors, get_default_lighting, getitem, get_or,
    default_motors, default_lighting.
  cbn [dict_get String.eqb Ascii.eqb Bool.eqb bind].
  destruct (String.eqb factory_type "Textile");
    [|destruct (String.eqb factory_type "Automotive");
      [|destruct (String.eqb factory_type "Food Processing")]].
  all: do 2 eexists; split; [reflexivity|]; split; [reflexivity|];
    split; [|split; [reflexivity|]].
  all: try (repeat constructor; unfold motor_in_widget_ranges, class_index;
            cbn [DefaultMotor.rating DefaultMotor.quantity DefaultMotor.load_factor
                 DefaultMotor.current_class of_int lit Number_Q]; in_ranges).
  all: unfold lighting_in_widget_ranges, lighting_type_index;
    cbn [DefaultLighting.fixtures DefaultLighting.wattage DefaultLighting.hours_per_day
         DefaultLighting.type]; in_ranges.
Qed.

(** X21. A motor group whose VFD box is ticked by default, that is, whose
    load factor is below 0.8, has a VFD savings fraction above 8 percent. *)
Theorem default_tick_means_savings (load_factor : Q) :
  vfd_default load_factor = true ->
  exists s, lookup vfd_savings_curve load_factor = Ok s /\ 0.08 < s.
Proof.
  unfold vfd_default. cbn [ltb lit Number_Q]. intros T.
  apply negb_true_iff in T. apply not_true_iff_false in T.
  rewrite Qle_bool_iff in T. apply Qnot_le_lt in T.
  change (vfd_savings_curve (F:=Q)) with (anchors4 0.40 0.25 0.10 0.00).
  rewrite lookup_anchors4. eexists. split; [reflexivity|].
  destruct (Qlt_le_dec 0.75 load_factor) as [A|A].
  - rewrite piecewise4_third by lra.
    assert (E : segment 0.75 0.10 1.00 0.00 load_factor
                == 0.10 - (2 # 5) * (load_factor - 0.75)) by (unfold segment; field).
    rewrite E. lra.
  - pose proof (@piecewise4_decreasing 0.40 0.25 0.10 0.00 load_factor 0.75
                  ltac:(lra) ltac:(lra) ltac:(lra) A) as D.
    rewrite (piecewise4_third 0.40 0.25 0.10 0.00 (x:=0.75)) in D by lra.
    rewrite segment_at_left in D by lra. lra.
Qed.

Lemma default_tick_means_savings_witness :
  exists s, lookup (F:=Q) vfd_savings_curve 0.75 = Ok s /\ 0.08 < s.
Proof.
  apply (@default_tick_means_savings 0.75). reflexivity.
Defined.

(** ** The implementation roadmap *)

Section RoadmapFacts.

Variable current_year : Z.
Variable shown_payback : Rec.t Q -> Q.
Variable to_int : Q -> Z.

Local Abbreviation loop := (roadmap_loop current_year shown_payback to_int).

Lemma roadmap_loop_acc (recs : list (Rec.t Q)) : forall i acc,
  loop i recs acc = acc ++ loop i recs [].
Proof.
  induction recs as [|r rest IH]; intros i acc; cbn [roadmap_loop].
  - rewrite app_nil_r. reflexivity.
  - cbv zeta. destruct (2 <=? i)%Z.
    + rewrite IH. rewrite (IH _ (([] ++ _) ++ _)). rewrite <- !app_assoc. reflexivity.
    + rewrite IH. rewrite (IH _ ([] ++ _)). rewrite <- !app_assoc. reflexivity.
Qed.

Lemma roadmap_loop_cons (r : Rec.t Q) (rest : list (Rec.t Q)) (i : Z) :
  loop i (r :: rest) [] =
  [Roadmap.mk current_year "Phase 1" (Rec.descr r)
     (duration shown_payback to_int r) (Rec.priority r)]
  ++ (if (2 <=? i)%Z
      then [Roadmap.mk (current_year + 1) "Phase 2" (Rec.descr r)
              (duration shown_payback to_int r) (Rec.priority r)]
      else [])
  ++ loop (i + 1) rest [].
Proof.
  cbn [roadmap_loop]. cbv zeta. rewrite roadmap_loop_acc.
  destruct (2 <=? i)%Z; cbn [app]; reflexivity.
Qed.

Lemma roadmap_loop_phase1 (recs : list (Rec.t Q)) : forall i,
  map Roadmap.Action (rows_of_phase "Phase 1" (loop i recs [])) = map Rec.descr recs.
Proof.
  induction recs as [|r rest IH]; intros i; [reflexivity|].
  rewrite roadmap_loop_cons. unfold rows_of_phase in *. rewrite !filter_app, !map_app.
  rewrite IH. destruct (2 <=? i)%Z; reflexivity.
Qed.

Lemma roadmap_loop_phase2 (recs : list (Rec.t Q)) : forall i, (0 <= i)%Z ->
  map Roadmap.Action (rows_of_phase "Phase 2" (loop i recs []))
  = map Rec.descr (skipn (Z.to_nat (2 - i)) recs).
Proof.
  induction recs as [|r rest IH]; intros i Hi.
  - rewrite skipn_nil. reflexivity.
  - rewrite roadmap_loop_cons. unfold rows_of_phase in *. rewrite !filter_app, !map_app.
    rewrite IH by lia.
    destruct (2 <=? i)%Z eqn:T.
    + apply Z.leb_le in T.
      replace (Z.to_nat (2 - i)) with 0%nat by lia.
      replace (Z.to_nat (2 - (i + 1))) with 0%nat by lia. reflexivity.
    + apply Z.leb_gt in T.
      replace (Z.to_nat (2 - i)) with (S (Z.to_nat (2 - (i + 1)))) by lia. reflexivity.
Qed.

Lemma roadmap_loop_rows (recs : list (Rec.t Q)) : forall i,
  Forall (fun row =>
            (Roadmap.Duration row <= 6)%Z
            /\ ((Roadmap.Phase row = "Phase 1"%string /\ Roadmap.Year row = current_year)
                \/ (Roadmap.Phase row = "Phase 2"%string
                    /\ Roadmap.Year row = (current_year + 1)%Z)))
         (loop i recs []).
Proof.
  induction recs as [|r rest IH]; intros i; [constructor|].
  rewrite roadmap_loop_cons. rewrite !Forall_app. split; [|split; [|apply IH]].
  - constructor; [|constructor]. cbn. split; [apply Z.le_min_l|left; split; reflexivity].
  - destruct (2 <=? i)%Z; constructor; [|constructor].
    cbn. split; [apply Z.le_min_l|right; split; reflexivity].
Qed.

End RoadmapFacts.

(** X22. Whatever the year, the way a payback is read back from its text
    and the conversion to a whole number, the roadmap schedules the first
    five recommendations in Phase 1 of the current year, in rank order, and
    once more the third to fifth in Phase 2 of the next year; no duration
    exceeds 6 months and there are at most 8 rows. *)
Theorem roadmap_structure (current_year : Z) (shown_payback : Rec.t Q -> Q)
    (to_int : Q -> Z) (recommendations : list (Rec.t Q)) :
  let rows := roadmap current_year shown_payback to_int recommendations in
  map Roadmap.Action (rows_of_phase "Phase 1" rows)
    = map Rec.descr (firstn 5 recommendations)
  /\ map Roadmap.Action (rows_of_phase "Phase 2" rows)
    = map Rec.descr (skipn 2 (firstn 5 recommendations))
  /\ Forall (fun row =>
               (Roadmap.Duration row <= 6)%Z
               /\ ((Roadmap.Phase row = "Phase 1"%string /\ Roadmap.Year row = current_year)
                   \/ (Roadmap.Phase row = "Phase 2"%string
                       /\ Roadmap.Year row = (current_year + 1)%Z)))
            rows
  /\ (List.length rows <= 8)%nat.
Proof.
  cbv zeta. unfold roadmap.
  split; [apply roadmap_loop_phase1|].
  split; [apply (roadmap_loop_phase2 current_year shown_payback to_int); lia|].
  pose proof (roadmap_loop_rows current_year shown_payback to_int
                (firstn 5 recommendations) 0) as Hf.
  split; [exact Hf|].
  assert (Hp1 : (List.length (rows_of_phase "Phase 1"
                   (roadmap_loop current_year shown_payback to_int 0
                      (firstn 5 recommendations) [])) <= 5)%nat).
  { rewrite <- (length_map Roadmap.Action), roadmap_loop_phase1, length_map.
    apply firstn_le_length. }
  assert (Hp2 : (List.length (rows_of_phase "Phase 2"
                   (roadmap_loop current_year shown_payback to_int 0
                      (firstn 5 recommendations) [])) <= 3)%nat).
  { rewrite <- (length_map Roadmap.Action),
      (roadmap_loop_phase2 current_year shown_payback to_int) by lia.
    rewrite length_map, length_skipn.
    pose proof (firstn_le_length 5 recommendations). lia. }
  revert Hf Hp1 Hp2.
  generalize (roadmap_loop current_year shown_payback to_int 0
                (firstn 5 recommendations) []).
  intros rows Hf. unfold rows_of_phase.
  assert (Hlen : List.length rows =
                 (List.length (filter (fun r => String.eqb (Roadmap.Phase r) "Phase 1") rows)
                  + List.length
                      (filter (fun r => String.eqb (Roadmap.Phase r) "Phase 2") rows))%nat).
  { induction Hf as [|row rows Hrow _ IH]; cbn [filter List.length]; [reflexivity|].
    destruct Hrow as (_ & [[P _]|[P _]]); rewrite P;
      cbn [String.eqb Ascii.eqb Bool.eqb List.length]; lia. }
  lia.
Qed.
